(** * Sahayaka Mitra farmer portal: a shallow embedding of [app.py]

    The Flask application keeps four module-level globals that are set
    once at import time ([api_key], [knowledge_base],
    [knowledge_base_string], [farmer_df]) and serves three JSON routes
    from them: [/health], [/get_farmer_data] and [/chat].

    Modelling choices.
    - Python objects that travel through JSON are values of [Py.value];
      a Python [str] is a Rocq [string] holding its UTF-8 bytes.
    - A pandas DataFrame is a list of column names and a list of rows of
      numpy/pandas scalars ([Pandas.scalar]).
    - [request.get_json()] is outside the repository: a handler takes the
      parsed body as its argument.  An uncaught Python exception is an
      explicit [Raises] outcome.
    - The call to the text-generation service is the single event of an
      interaction tree; a handler that answers without calling it is a
      [Ret] leaf.
    - [round(time.time() - start_time, 3)] is read from the clock; the
      handlers take that number as the argument [elapsed].
    - The repository pins no pandas release.  What [astype(str)] does
      to a missing value differs between releases; both behaviours are
      covered through the parameter [na_as_text]. *)

From Stdlib Require Import ZArith List String Ascii Bool Lia DecimalString.
From Stdlib Require Import PrimFloat.
From ITree Require Import ITree.
Import ListNotations.
Import ITreeNotations.
Local Open Scope list_scope.
Local Open Scope string_scope.
Set Warnings "-register-all".

(* ------------------------------------------------------------------ *)
(** ** Python values *)

Module Py.

(** What [json.loads] can produce, which is also what [jsonify]
    consumes.  A dict keeps its items in insertion order. *)
Inductive value : Type :=
| PNone
| PBool (b : bool)
| PInt (z : Z)
| PFloat (f : float)
| PStr (s : string)
| PList (l : list value)
| PDict (d : list (string * value)).

(** [bool(v)], the test behind [if not v]. *)
Definition truthy (v : value) : bool :=
  match v with
  | PNone => false
  | PBool b => b
  | PInt z => negb (z =? 0)%Z
  | PFloat f => negb (PrimFloat.is_zero f)
  | PStr s => match s with EmptyString => false | String _ _ => true end
  | PList l => match l with [] => false | _ :: _ => true end
  | PDict d => match d with [] => false | _ :: _ => true end
  end.

(** [v is None]. *)
Definition is_none (v : value) : bool :=
  match v with PNone => true | _ => false end.

(** [d.get(key)]: the value bound to [key], [None] when there is none. *)
Fixpoint dict_get (d : list (string * value)) (key : string) : value :=
  match d with
  | [] => PNone
  | (k, v) :: d' => if String.eqb k key then v else dict_get d' key
  end.

(** [d.pop(key, None)], for its effect on the dict. *)
Fixpoint dict_pop {A : Type} (d : list (string * A)) (key : string)
  : list (string * A) :=
  match d with
  | [] => []
  | (k, v) :: d' =>
      if String.eqb k key then dict_pop d' key else (k, v) :: dict_pop d' key
  end.

(** [str(z)] for an int. *)
Definition str_int (z : Z) : string := NilZero.string_of_int (Z.to_int z).

(** [str(b)] for a bool. *)
Definition str_bool (b : bool) : string := if b then "True" else "False".

(** [sep.join(xs)]. *)
Fixpoint join (sep : string) (xs : list string) : string :=
  match xs with
  | [] => ""
  | [x] => x
  | x :: xs' => x ++ sep ++ join sep xs'
  end.

Section Str.
(** The interpreter's [repr] of a float (shortest round-trip
    decimal) and of a str (quoting and escapes) are built-ins that
    the application only calls. *)
Variable float_repr : float -> string.
Variable str_repr : string -> string.

Fixpoint repr (v : value) : string :=
  match v with
  | PNone => "None"
  | PBool b => str_bool b
  | PInt z => str_int z
  | PFloat f => float_repr f
  | PStr s => str_repr s
  | PList l => "[" ++ join ", " (map repr l) ++ "]"
  | PDict d =>
      "{" ++ join ", "
               (map (fun kv : string * value =>
                       match kv with
                       | (k, x) => str_repr k ++ ": " ++ repr x
                       end) d) ++ "}"
  end.

(** [str(v)]: a str is returned as it is, anything else through
    [repr]. *)
Definition str (v : value) : string :=
  match v with
  | PStr s => s
  | _ => repr v
  end.
End Str.

End Py.

(* ------------------------------------------------------------------ *)
(** ** The key normalisation: [re.sub(r'[^a-zA-Z0-9]', '', s).lower()] *)

Module Norm.

Definition between (lo hi c : ascii) : bool :=
  (N_of_ascii lo <=? N_of_ascii c)%N && (N_of_ascii c <=? N_of_ascii hi)%N.

Definition is_upper (c : ascii) : bool := between "A" "Z" c.
Definition is_lower (c : ascii) : bool := between "a" "z" c.
Definition is_digit (c : ascii) : bool := between "0" "9" c.

(** Membership in the character class [a-zA-Z0-9].  Every byte of the
    UTF-8 encoding of a code point above 127 is at least 128, so a
    non-ASCII character is outside the class byte by byte. *)
Definition in_class (c : ascii) : bool :=
  is_lower c || is_upper c || is_digit c.

(** [re.sub(r'[^a-zA-Z0-9]', '', s)] and pandas'
    [.str.replace(r'[^a-zA-Z0-9]', '', regex=True)] on one element:
    every character outside the class is deleted. *)
Fixpoint re_sub_non_alnum (s : string) : string :=
  match s with
  | EmptyString => EmptyString
  | String c s' =>
      if in_class c then String c (re_sub_non_alnum s')
      else re_sub_non_alnum s'
  end.

Definition lower_char (c : ascii) : ascii :=
  if is_upper c then ascii_of_N (N_of_ascii c + 32) else c.

(** [s.lower()].  The application calls it only on the output of
    [re_sub_non_alnum], where Python's Unicode lower-casing is the
    ASCII one. *)
Fixpoint lower (s : string) : string :=
  match s with
  | EmptyString => EmptyString
  | String c s' => String (lower_char c) (lower s')
  end.

(** Line 102 after [str(rtc_number)]. *)
Definition normalize (s : string) : string := lower (re_sub_non_alnum s).

End Norm.

(* ------------------------------------------------------------------ *)
(** ** The part of pandas that the application uses *)

Module Pandas.

(** A cell of a DataFrame read by [read_csv]: a Python [str] in an
    object column, or a numpy scalar.  A missing value is the float
    NaN. *)
Inductive scalar : Type :=
| SStr (s : string)
| SInt (z : Z)
| SFloat (f : float)
| SBool (b : bool).

(** Row-oriented view of a DataFrame: the column labels, then one list
    of cells per row, in storage order. *)
Record DataFrame : Type := mkDataFrame {
  columns : list string;
  rows : list (list scalar)
}.

(** Every row has one cell per column. *)
Definition rectangular (df : DataFrame) : Prop :=
  Forall (fun r => List.length r = List.length (columns df)) (rows df).

Definition nan : scalar := SFloat PrimFloat.nan.

(** [pd.isna(v)] on a scalar. *)
Definition isna (v : scalar) : bool :=
  match v with
  | SFloat f => PrimFloat.is_nan f
  | _ => false
  end.

(** [hasattr(v, 'item')]: true of numpy scalars, false of a str. *)
Definition has_item (v : scalar) : bool :=
  match v with
  | SStr _ => false
  | _ => true
  end.

(** The Python object a cell is ([str]) or becomes through [.item()]. *)
Definition native (v : scalar) : Py.value :=
  match v with
  | SStr s => Py.PStr s
  | SInt z => Py.PInt z
  | SFloat f => Py.PFloat f
  | SBool b => Py.PBool b
  end.

(** [name in df.columns]. *)
Definition has_column (df : DataFrame) (name : string) : bool :=
  existsb (String.eqb name) (columns df).

(** Position of a label among the columns. *)
Fixpoint index_of (name : string) (cols : list string) : option nat :=
  match cols with
  | [] => None
  | c :: cols' =>
      if String.eqb c name then Some 0
      else option_map S (index_of name cols')
  end.

(** [df[name]] as the list of that column's cells; [None] stands for
    the [KeyError] of an unknown label. *)
Definition get_column (df : DataFrame) (name : string)
  : option (list scalar) :=
  match index_of name (columns df) with
  | Some i => Some (map (fun r => nth i r nan) (rows df))
  | None => None
  end.

(** Overwrite position [i] of a row. *)
Fixpoint set_nth (i : nat) (v : scalar) (r : list scalar) : list scalar :=
  match r, i with
  | [], _ => []
  | _ :: r', O => v :: r'
  | x :: r', S i' => x :: set_nth i' v r'
  end.

(** [df[name] = values]: an existing column is overwritten in place, a
    new one is appended on the right. *)
Definition set_column (df : DataFrame) (name : string)
           (values : list scalar) : DataFrame :=
  match index_of name (columns df) with
  | Some i =>
      {| columns := columns df;
         rows := map (fun rv : list scalar * scalar =>
                        set_nth i (snd rv) (fst rv))
                     (combine (rows df) values) |}
  | None =>
      {| columns := (columns df ++ [name])%list;
         rows := map (fun rv : list scalar * scalar =>
                        (fst rv ++ [snd rv])%list)
                     (combine (rows df) values) |}
  end.

(** [series == x] for a str [x]: element-wise, and a cell that is not
    a str is different from every str. *)
Definition eq_str (series : list scalar) (x : string) : list bool :=
  map (fun v => match v with
                | SStr s => String.eqb s x
                | _ => false
                end) series.

(** [df[mask]]: the rows whose mask entry is true, in storage order. *)
Definition boolean_index (df : DataFrame) (mask : list bool) : DataFrame :=
  {| columns := columns df;
     rows := map fst (filter snd (combine (rows df) mask)) |}.

(** [df.empty]: some axis has length zero. *)
Definition empty (df : DataFrame) : bool :=
  (List.length (rows df) =? 0)%nat || (List.length (columns df) =? 0)%nat.

(** [df.iloc[0].to_dict()]; [None] stands for the [IndexError] of a
    frame without rows. *)
Definition iloc0_to_dict (df : DataFrame) : option (list (string * scalar)) :=
  match rows df with
  | [] => None
  | r :: _ => Some (combine (columns df) r)
  end.

Section Series.
Variable float_repr : float -> string.

(** What [astype(str)] makes of a missing value depends on the pandas
    release, and the repository pins none: up to pandas 2 the value
    becomes its text ('nan'), from pandas 3 on it stays missing.
    [na_as_text] is true for the first behaviour. *)
Variable na_as_text : bool.

(** [str(v)] for one cell. *)
Definition cell_text (v : scalar) : string :=
  match v with
  | SStr s => s
  | SInt z => Py.str_int z
  | SFloat f => float_repr f
  | SBool b => Py.str_bool b
  end.

(** One element of [series.astype(str)]: a str, or [None] for a value
    that stays missing. *)
Definition astype_str (v : scalar) : option string :=
  if isna v && negb na_as_text then None else Some (cell_text v).

(** One element of [series.str.replace(r'[^a-zA-Z0-9]', '', regex=True)]
    and of [series.str.lower()]: the [.str] accessor passes a missing
    value through. *)
Definition str_replace_non_alnum (o : option string) : option string :=
  option_map Norm.re_sub_non_alnum o.

Definition str_lower (o : option string) : option string :=
  option_map Norm.lower o.

(** An element of a column of strs as a cell: a str, or the missing
    value. *)
Definition str_cell (o : option string) : scalar :=
  match o with
  | Some s => SStr s
  | None => nan
  end.

(** Line 40, right-hand side:
    [.astype(str).str.replace(r'[^a-zA-Z0-9]', '', regex=True).str.lower()]. *)
Definition cleaned_series (series : list scalar) : list scalar :=
  map str_cell
      (map str_lower
           (map str_replace_non_alnum
                (map astype_str series))).
End Series.

End Pandas.

(* ------------------------------------------------------------------ *)
(** ** The application *)

Module App.
Import Py Pandas.

(** A Flask response: the JSON document and the HTTP status. *)
Record response : Type := mkResponse {
  body : Py.value;
  status : Z
}.

(** A handler returns a response, or an exception leaves it. *)
Inductive outcome : Type :=
| Returns (r : response)
| Raises (exn : string).

(** [jsonify(d)], with the status that follows it in the [return]
    statement (200 when there is none).  The members are those of the
    Python dict, listed in its insertion order; the order in which
    Flask writes them on the wire (its default provider sorts the keys)
    is not modelled. *)
Definition jsonify (d : list (string * Py.value)) (code : Z) : response :=
  {| body := PDict d; status := code |}.

(** The module-level globals after import. [genai_configured] records
    whether line 21 ran. *)
Record AppState : Type := mkAppState {
  api_key : Py.value;
  genai_configured : bool;
  knowledge_base : Py.value;
  knowledge_base_string : string;
  farmer_df : option DataFrame
}.

(** The one external interaction: [model.generate_content(prompt)] on
    a [GenerativeModel] of the given name, read through
    [response.text].  The answer [None] stands for any exception
    raised inside the [try] block. *)
Variant genaiE : Type -> Type :=
| GenerateContent (model : string) (prompt : string)
  : genaiE (option string).

Definition template_head : string := "
You are 'Sahayaka Mitra' (ಸಹಾಯಕ ಮಿತ್ರ), a helpful AI chatbot for Indian farmers. 
Your goal is to answer user questions about government agricultural schemes.

**RULES:**
1. Answer questions based ONLY on the information provided in the 'SCHEME INFORMATION' section below. Do not use any external knowledge.
2. Respond clearly and concisely in BOTH English and Kannada, regardless of the input language.
3. If the user's question is unclear or not related to the provided schemes, politely say you can only answer questions about the listed agricultural schemes.
4. If the user asks about topics outside agricultural schemes, politely inform them you can only assist with questions related to the provided schemes.
5. If the user needs help with other agricultural schemes, give them relevant details and how to apply by searching online.
6. Always encourage users to visit official government websites or contact local agricultural offices for the most accurate and up-to-date information.

---
**SCHEME INFORMATION:**
".

Definition template_middle : string := "
---

Now, based on the rules and information above, answer the user's question.

User Question: ".

Definition template_tail : string := "
".

(** [v] right after the 'for key, value in farmer_data.items()' loop. *)
Definition to_json_value (v : scalar) : Py.value :=
  if isna v then PNone
  else if has_item v then native v
  else native v.

Section Handlers.
(** Built-ins of the interpreter and of the json module, and the
    pandas behaviour described at [Pandas.astype_str]. *)
Variable float_repr : float -> string.
Variable na_as_text : bool.
Variable str_repr : string -> string.
Variable json_dumps : Py.value -> string.

(** Lines 17-21. *)
Definition configure_api (getenv : option string) : Py.value * bool :=
  let key := match getenv with
             | Some s => PStr s
             | None => PNone
             end in
  (key, truthy key).

(** Lines 24-32. [schemes] is what [json.load] returned, [None]
    when opening or parsing the file raised. *)
Definition load_knowledge_base (schemes : option Py.value)
  : Py.value * string :=
  match schemes with
  | Some doc => (doc, json_dumps doc)
  | None => (PNone, "")
  end.

(** Lines 34-45. [csv] is what [pd.read_csv] returned, [None] when
    it raised. *)
Definition load_farmer_data (csv : option DataFrame) : option DataFrame :=
  match csv with
  | None => None
  | Some df =>
      if negb (has_column df "rtc_number") then None
      else
        match get_column df "rtc_number" with
        | None => None
        | Some series =>
            Some (set_column df "cleaned_rtc"
                             (cleaned_series float_repr na_as_text series))
        end
  end.

(** The import-time code as a whole. *)
Definition startup (getenv : option string)
           (schemes : option Py.value)
           (csv : option DataFrame) : AppState :=
  let (key, configured) := configure_api getenv in
  let (kb, kb_string) := load_knowledge_base schemes in
  {| api_key := key;
     genai_configured := configured;
     knowledge_base := kb;
     knowledge_base_string := kb_string;
     farmer_df := load_farmer_data csv |}.

(** [prompt_template.format(knowledge_base=kb, user_question=q)]. *)
Definition format_prompt (kb : string) (q : Py.value) : string :=
  template_head ++ kb ++ template_middle
                ++ Py.str float_repr str_repr q ++ template_tail.

Variable st : AppState.

(** Lines 71-78. *)
Definition health : response :=
  jsonify [("status", PStr "ok");
           ("knowledge_base_loaded",
            PBool (negb (is_none (knowledge_base st))));
           ("farmer_data_loaded",
            PBool (match farmer_df st with
                   | Some _ => true
                   | None => false
                   end));
           ("api_key_configured",
            PBool (negb (is_none (api_key st))))]
          200.

(** Line 102. *)
Definition cleaned_rtc_input (rtc_number : Py.value) : string :=
  Norm.lower (Norm.re_sub_non_alnum (Py.str float_repr str_repr rtc_number)).

(** Lines 91-117. *)
Definition get_farmer_data (elapsed : float) (data : Py.value) : outcome :=
  match farmer_df st with
  | None =>
      Returns (jsonify [("success", PBool false);
                        ("error",
                         PStr "Farmer data is not available on the server.")]
                       500)
  | Some df =>
      match data with
      | PDict d =>
          let rtc_number := dict_get d "rtc" in
          if negb (truthy rtc_number) then
            Returns (jsonify [("success", PBool false);
                              ("error", PStr "RTC number is required.")]
                             400)
          else
            match get_column df "cleaned_rtc" with
            | None => Raises "KeyError"
            | Some keys =>
                let result_row :=
                  boolean_index df
                    (eq_str keys (cleaned_rtc_input rtc_number)) in
                if negb (empty result_row) then
                  match iloc0_to_dict result_row with
                  | None => Raises "IndexError"
                  | Some farmer_data =>
                      let farmer_data := dict_pop farmer_data "cleaned_rtc" in
                      let farmer_data :=
                        map (fun kv : string * scalar =>
                               (fst kv, to_json_value (snd kv)))
                            farmer_data in
                      Returns (jsonify [("success", PBool true);
                                        ("data", PDict farmer_data);
                                        ("elapsed", PFloat elapsed)]
                                       200)
                  end
                else
                  Returns (jsonify
                             [("success", PBool false);
                              ("error",
                               PStr "Farmer with this RTC number not found.")]
                             404)
            end
      | _ => Raises "AttributeError"
      end
  end.

(** Lines 120-145. *)
Definition chat (elapsed : float) (data : Py.value) : itree genaiE outcome :=
  match data with
  | PDict d =>
      let user_question := dict_get d "message" in
      if negb (truthy user_question) then
        Ret (Returns (jsonify
                        [("success", PBool false);
                         ("reply",
                          PStr "Invalid request. Please provide a message.")]
                        400))
      else if negb (truthy (PStr (knowledge_base_string st))) then
        Ret (Returns (jsonify
                        [("success", PBool false);
                         ("reply",
                          PStr "Knowledge base not loaded. Please contact administrator.")]
                        500))
      else if negb (truthy (api_key st)) then
        Ret (Returns (jsonify
                        [("success", PBool false);
                         ("reply",
                          PStr "Chatbot API is not configured. Please contact administrator.")]
                        500))
      else
        let final_prompt :=
          format_prompt (knowledge_base_string st) user_question in
        answer <- ITree.trigger
                    (GenerateContent "gemini-2.0-flash-exp" final_prompt) ;;
        match answer with
        | Some text =>
            Ret (Returns (jsonify [("success", PBool true);
                                   ("reply", PStr text);
                                   ("elapsed", PFloat elapsed)]
                                  200))
        | None =>
            Ret (Returns (jsonify
                            [("success", PBool false);
                             ("reply",
                              PStr "Sorry, I encountered an error. Please try again later.")]
                            500))
        end
  | _ => Ret (Raises "AttributeError")
  end.

End Handlers.

End App.

(* ------------------------------------------------------------------ *)
(** ** Vocabulary of the statements *)

Module Stmt.
Import Py Pandas App.

(** The cell of [row] under the label ["rtc_number"]. *)
Definition rtc_cell (csv : DataFrame) (row : list scalar) : scalar :=
  match index_of "rtc_number" (columns csv) with
  | Some i => nth i row nan
  | None => nan
  end.

(** The entry of line 40's series that belongs to [row]: the
    normalised key, [None] when the key is a missing value. *)
Definition stored_key (float_repr : float -> string) (na_as_text : bool)
           (csv : DataFrame) (row : list scalar) : option string :=
  str_lower
    (str_replace_non_alnum
       (astype_str float_repr na_as_text (rtc_cell csv row))).

(** [key == x] for one stored key and a str [x]; a missing key equals
    no str. *)
Definition key_matches (key : option string) (x : string) : bool :=
  match key with
  | Some s => String.eqb s x
  | None => false
  end.

(** The row of the frame in memory that comes from [row] of the file:
    line 40 writes the key under the label ["cleaned_rtc"]. *)
Definition keyed_row (float_repr : float -> string) (na_as_text : bool)
           (csv : DataFrame) (row : list scalar) : list scalar :=
  match index_of "cleaned_rtc" (columns csv) with
  | Some i =>
      set_nth i (str_cell (stored_key float_repr na_as_text csv row)) row
  | None =>
      (row ++ [str_cell (stored_key float_repr na_as_text csv row)])%list
  end.

(** The labels of the frame in memory. *)
Definition keyed_columns (csv : DataFrame) : list string :=
  match index_of "cleaned_rtc" (columns csv) with
  | Some _ => columns csv
  | None => (columns csv ++ ["cleaned_rtc"])%list
  end.

(** Lines 106-113 on one row of the file as it was read: the row as a
    dict, without the ["cleaned_rtc"] entry, each value made
    JSON-ready. *)
Definition record (csv : DataFrame) (row : list scalar)
  : list (string * Py.value) :=
  map (fun kv : string * scalar => (fst kv, to_json_value (snd kv)))
      (dict_pop (combine (columns csv) row) "cleaned_rtc").

(** The responses of [get_farmer_data]. *)
Definition data_unavailable : response :=
  jsonify [("success", PBool false);
           ("error", PStr "Farmer data is not available on the server.")]
          500.

Definition missing_input : response :=
  jsonify [("success", PBool false);
           ("error", PStr "RTC number is required.")]
          400.

Definition not_found : response :=
  jsonify [("success", PBool false);
           ("error", PStr "Farmer with this RTC number not found.")]
          404.

Definition found (data : list (string * Py.value)) (elapsed : float)
  : response :=
  jsonify [("success", PBool true);
           ("data", PDict data);
           ("elapsed", PFloat elapsed)]
          200.

(** The rejections of [chat]. *)
Definition invalid_request : response :=
  jsonify [("success", PBool false);
           ("reply", PStr "Invalid request. Please provide a message.")]
          400.

Definition knowledge_base_missing : response :=
  jsonify [("success", PBool false);
           ("reply",
            PStr "Knowledge base not loaded. Please contact administrator.")]
          500.

Definition not_configured : response :=
  jsonify [("success", PBool false);
           ("reply",
            PStr "Chatbot API is not configured. Please contact administrator.")]
          500.

(** A member of a JSON response body. *)
Definition json_field (r : response) (key : string) : Py.value :=
  match body r with
  | PDict d => dict_get d key
  | _ => PNone
  end.

(** JSON types of a value. *)
Definition is_string (v : Py.value) : bool :=
  match v with PStr _ => true | _ => false end.

Definition is_number (v : Py.value) : bool :=
  match v with PInt _ | PFloat _ => true | _ => false end.

Definition is_boolean (v : Py.value) : bool :=
  match v with PBool _ => true | _ => false end.

Definition string_number_or_null (v : Py.value) : bool :=
  is_string v || is_number v || is_none v.

Definition string_number_boolean_or_null (v : Py.value) : bool :=
  is_string v || is_number v || is_boolean v || is_none v.

End Stmt.

(* ------------------------------------------------------------------ *)
(** ** Small data files for the worked examples *)

Module Sample.
Import Py Pandas App.

(** One holding with a hand-formatted number and a soil reading. *)
Definition soil_csv : DataFrame :=
  {| columns := ["rtc_number"; "soil_ph"];
     rows := [[SStr "123/ABC-45"; SFloat 6.5]] |}.

(** Two holdings whose numbers differ only in case and punctuation. *)
Definition first_holding : list scalar := [SStr "A-1"; SStr "first"].
Definition second_holding : list scalar := [SStr "a1"; SStr "second"].

Definition duplicate_csv : DataFrame :=
  {| columns := ["rtc_number"; "owner"];
     rows := [first_holding; second_holding] |}.

(** A file with a True/False column, which [read_csv] reads as bool. *)
Definition irrigated_csv : DataFrame :=
  {| columns := ["rtc_number"; "irrigated"];
     rows := [[SStr "KA-7"; SBool true]] |}.

(** A file whose holding numbers are all integers, which [read_csv]
    reads as int64; the first number is 0. *)
Definition numbered_csv : DataFrame :=
  {| columns := ["rtc_number"; "owner"];
     rows := [[SInt 0; SStr "zero"]; [SInt 12345; SStr "other"]] |}.

(** A file in which the only holding has no number: the cell is the
    missing value. *)
Definition unnumbered_csv : DataFrame :=
  {| columns := ["rtc_number"; "owner"];
     rows := [[nan; SStr "nobody"]] |}.

End Sample.

(* ------------------------------------------------------------------ *)
(** ** Running a handler against the text-generation service *)

Module Run.
Import Py Pandas App.

(** The service as seen from the [try] block of [chat]: the text of the
    answer for a model name and a prompt, [None] when anything inside
    the block raises. *)
Definition service : Type := string -> string -> option string.

(** One call as it is logged: model name and prompt. *)
Definition call : Type := (string * string)%type.

(** The answer of the service to an event. *)
Definition answer (srv : service) {T : Type} (e : genaiE T) : T :=
  match e with
  | GenerateContent model prompt => srv model prompt
  end.

(** The call that an event stands for. *)
Definition call_of {T : Type} (e : genaiE T) : call :=
  match e with
  | GenerateContent model prompt => (model, prompt)
  end.

(** Run an interaction tree against the service for at most [fuel]
    steps: the result and the calls made, in order. *)
Fixpoint run {R : Type} (fuel : nat) (srv : service) (t : itree genaiE R)
  : option (R * list call) :=
  match fuel with
  | O => None
  | S fuel' =>
      match observe t with
      | RetF r => Some (r, [])
      | TauF t' => run fuel' srv t'
      | VisF e k =>
          match run fuel' srv (k (answer srv e)) with
          | Some (r, calls) => Some (r, call_of e :: calls)
          | None => None
          end
      end
  end.

(** The replies of [chat] that follow a call. *)
Definition answered (text : string) (elapsed : float) : response :=
  jsonify [("success", PBool true);
           ("reply", PStr text);
           ("elapsed", PFloat elapsed)]
          200.

Definition completion_failed : response :=
  jsonify [("success", PBool false);
           ("reply",
            PStr "Sorry, I encountered an error. Please try again later.")]
          500.

(** The model that [chat] asks for. *)
Definition model_name : string := "gemini-2.0-flash-exp".

End Run.

(* ------------------------------------------------------------------ *)
(** ** Further vocabulary *)

Module More.
Import Py Pandas App.

(** Every character is a lower-case letter or a digit. *)
Fixpoint canonical (s : string) : bool :=
  match s with
  | EmptyString => true
  | String c s' => (Norm.is_lower c || Norm.is_digit c) && canonical s'
  end.

(** The identifier with its ASCII capital letters made small, byte by
    byte.  This is not [str.lower()], which also changes letters
    outside ASCII. *)
Fixpoint ascii_fold (s : string) : string :=
  match s with
  | EmptyString => EmptyString
  | String c s' =>
      String (if Norm.is_upper c then ascii_of_N (N_of_ascii c + 32) else c)
             (ascii_fold s')
  end.

(** The three tests of [chat] that precede the [try] block, all
    passed. *)
Definition chat_gates_pass (st : AppState) (d : list (string * Py.value))
  : bool :=
  truthy (dict_get d "message")
  && truthy (PStr (knowledge_base_string st))
  && truthy (api_key st).

(** The value is not a float NaN. *)
Definition not_nan (v : Py.value) : bool :=
  match v with
  | PFloat f => negb (PrimFloat.is_nan f)
  | _ => true
  end.

(** The frame that start-up builds from [Sample.soil_csv]. *)
Definition soil_frame : DataFrame :=
  {| columns := ["rtc_number"; "soil_ph"; "cleaned_rtc"];
     rows := [[SStr "123/ABC-45"; SFloat 6.5; SStr "123abc45"]] |}.

(** A stand-in for the float [repr] in worked examples whose only
    float is 6.5. *)
Definition repr_six_five (f : float) : string := "6.5".

(** The body is a JSON object. *)
Definition is_object (v : Py.value) : bool :=
  match v with
  | PDict _ => true
  | _ => false
  end.

End More.

(* ------------------------------------------------------------------ *)
(** ** Facts about the normalisation *)

Module NormFacts.
Import Norm.

Lemma lower_char_not_upper (c : ascii) : is_upper (lower_char c) = false.
Proof. destruct c as [[] [] [] [] [] [] [] []]; reflexivity. Qed.

Lemma in_class_lower_char (c : ascii) : in_class (lower_char c) = in_class c.
Proof. destruct c as [[] [] [] [] [] [] [] []]; reflexivity. Qed.

Lemma lower_char_idem (c : ascii) : lower_char (lower_char c) = lower_char c.
Proof.
  unfold lower_char at 1. now rewrite lower_char_not_upper.
Qed.

Lemma lower_idem (s : string) : lower (lower s) = lower s.
Proof.
  induction s as [|c s IH]; simpl; [reflexivity|].
  now rewrite lower_char_idem, IH.
Qed.

(** Deleting and lower-casing commute: a letter stays in the class
    when its case changes. *)
Lemma re_sub_lower (s : string) :
  re_sub_non_alnum (lower s) = lower (re_sub_non_alnum s).
Proof.
  induction s as [|c s IH]; simpl; [reflexivity|].
  rewrite in_class_lower_char.
  destruct (in_class c); simpl; now rewrite IH.
Qed.

Lemma re_sub_idem (s : string) :
  re_sub_non_alnum (re_sub_non_alnum s) = re_sub_non_alnum s.
Proof.
  induction s as [|c s IH]; simpl; [reflexivity|].
  destruct (in_class c) eqn:E; simpl; [rewrite E, IH|]; auto.
Qed.

Lemma normalize_idem (s : string) : normalize (normalize s) = normalize s.
Proof.
  unfold normalize.
  now rewrite re_sub_lower, re_sub_idem, lower_idem.
Qed.

(** The result holds lower-case letters and digits only. *)
Lemma normalize_chars (s : string) :
  Forall (fun c => (is_lower c || is_digit c) = true)
         (list_ascii_of_string (normalize s)).
Proof.
  unfold normalize.
  induction s as [|c s IH]; simpl; [constructor|].
  destruct (in_class c) eqn:E; simpl; [constructor|]; auto.
  revert E. clear.
  destruct c as [[] [] [] [] [] [] [] []]; vm_compute; congruence.
Qed.

End NormFacts.


(* ------------------------------------------------------------------ *)
(** ** Facts about frames and dicts *)

Module PandasFacts.
Import Py Pandas.

Lemma index_of_bound (name : string) (cols : list string) (i : nat) :
  index_of name cols = Some i -> (i < List.length cols)%nat.
Proof.
  revert i. induction cols as [|c cols IH]; simpl; intros i H; [discriminate|].
  destruct (String.eqb c name).
  - injection H as <-. lia.
  - destruct (index_of name cols) as [j|]; simpl in H; [|discriminate].
    injection H as <-. specialize (IH j eq_refl). lia.
Qed.

Lemma index_of_app_new (name : string) (cols : list string) :
  index_of name cols = None ->
  index_of name (cols ++ [name])%list = Some (List.length cols).
Proof.
  induction cols as [|c cols IH]; simpl; intros H.
  - now rewrite String.eqb_refl.
  - destruct (String.eqb c name); [discriminate|].
    destruct (index_of name cols); [discriminate|].
    now rewrite IH.
Qed.

Lemma has_column_index_of (df : DataFrame) (name : string) :
  has_column df name = true ->
  exists i, index_of name (columns df) = Some i.
Proof.
  unfold has_column. induction (columns df) as [|c cols IH]; simpl; [discriminate|].
  rewrite (String.eqb_sym name c).
  destruct (String.eqb c name); simpl; [eauto|].
  intros H. destruct (IH H) as [i ->]. simpl. eauto.
Qed.

Lemma nth_set_nth (i : nat) (v d : scalar) (r : list scalar) :
  (i < List.length r)%nat -> nth i (set_nth i v r) d = v.
Proof.
  revert i. induction r as [|x r IH]; simpl; intros i H; [lia|].
  destruct i; simpl; [reflexivity|]. apply IH. lia.
Qed.

Lemma nth_snoc (v d : scalar) (r : list scalar) :
  nth (List.length r) (r ++ [v])%list d = v.
Proof. induction r; simpl; auto. Qed.

Lemma combine_snoc {A B : Type} (xs : list A) (ys : list B) (x : A) (y : B) :
  List.length xs = List.length ys ->
  combine (xs ++ [x])%list (ys ++ [y])%list = (combine xs ys ++ [(x, y)])%list.
Proof.
  revert ys. induction xs as [|a xs IH]; intros [|b ys] H; simpl in *;
    try discriminate; [reflexivity|].
  f_equal. apply IH. lia.
Qed.

Lemma dict_pop_app {A : Type} (d1 d2 : list (string * A)) (key : string) :
  dict_pop (d1 ++ d2)%list key = (dict_pop d1 key ++ dict_pop d2 key)%list.
Proof.
  induction d1 as [|[k v] d1 IH]; simpl; [reflexivity|].
  destruct (String.eqb k key); simpl; now rewrite IH.
Qed.

(** Overwriting the first cell under a label is invisible once the
    label has been popped. *)
Lemma dict_pop_set_nth (cols : list string) (name : string) (i : nat)
      (v : scalar) (r : list scalar) :
  index_of name cols = Some i ->
  dict_pop (combine cols (set_nth i v r)) name = dict_pop (combine cols r) name.
Proof.
  revert i r. induction cols as [|c cols IH]; intros i r H; simpl in H;
    [discriminate|].
  destruct (String.eqb c name) eqn:E.
  - injection H as <-. destruct r; simpl; [reflexivity|]. now rewrite E.
  - destruct (index_of name cols) as [j|] eqn:Ej; simpl in H; [|discriminate].
    injection H as <-. destruct r as [|x r]; simpl; [reflexivity|].
    rewrite E. f_equal. now apply IH.
Qed.

Lemma dict_pop_absent {A : Type} (d : list (string * A)) (key : string) :
  ~ In key (map fst (dict_pop d key)).
Proof.
  induction d as [|[k v] d IH]; simpl; [tauto|].
  destruct (String.eqb k key) eqn:E; simpl; [assumption|].
  intros [->|H]; [|contradiction].
  now rewrite String.eqb_refl in E.
Qed.

Lemma hd_error_filter {A : Type} (p : A -> bool) (l : list A) :
  hd_error (filter p l) = find p l.
Proof.
  induction l as [|x l IH]; simpl; [reflexivity|].
  destruct (p x); simpl; auto.
Qed.

Lemma combine_map_same {A B : Type} (f : A -> B) (l : list A) :
  combine l (map f l) = map (fun x => (x, f x)) l.
Proof. induction l; simpl; congruence. Qed.

Lemma filter_mask {A B : Type} (g : A -> B) (m : A -> bool) (l : list A) :
  map fst (filter snd (combine (map g l) (map m l))) = map g (filter m l).
Proof.
  induction l as [|x l IH]; simpl; [reflexivity|].
  destruct (m x); simpl; now rewrite IH.
Qed.

End PandasFacts.


(* ------------------------------------------------------------------ *)
(** ** The frame built at start-up and the search in it *)

Module LookupFacts.
Import Py Pandas App Stmt PandasFacts.

Section Loaded.
Variable float_repr : float -> string.
Variable na_as_text : bool.
Variable str_repr : string -> string.

(** [str] on a cell and [str] on the Python value of that cell give the
    same text. *)
Lemma cell_text_native (v : scalar) :
  cell_text float_repr v = Py.str float_repr str_repr (native v).
Proof. destruct v; reflexivity. Qed.

(** A value that is not missing gets its text in [astype(str)]. *)
Lemma astype_str_present (v : scalar) :
  isna v = false ->
  astype_str float_repr na_as_text v = Some (cell_text float_repr v).
Proof. unfold astype_str. now intros ->. Qed.

(** The stored key of a row whose number is not missing is what the
    handler computes from that number. *)
Lemma stored_key_present (csv : DataFrame) (row : list scalar) :
  isna (rtc_cell csv row) = false ->
  stored_key float_repr na_as_text csv row
  = Some (cleaned_rtc_input float_repr str_repr (native (rtc_cell csv row))).
Proof.
  intros H. unfold stored_key, cleaned_rtc_input.
  rewrite (astype_str_present _ H). simpl.
  now rewrite cell_text_native.
Qed.

Lemma cleaned_series_keys (csv : DataFrame) (i : nat) :
  index_of "rtc_number" (columns csv) = Some i ->
  cleaned_series float_repr na_as_text (map (fun r => nth i r nan) (rows csv))
  = map (fun r => str_cell (stored_key float_repr na_as_text csv r)) (rows csv).
Proof.
  intros Hi. unfold cleaned_series, stored_key, rtc_cell. rewrite Hi.
  now rewrite !map_map.
Qed.

(** What line 40 leaves in [farmer_df]. *)
Lemma load_farmer_data_frame (csv df : DataFrame) :
  load_farmer_data float_repr na_as_text (Some csv) = Some df ->
  df = {| columns := keyed_columns csv;
          rows := map (keyed_row float_repr na_as_text csv) (rows csv) |}.
Proof.
  unfold load_farmer_data.
  destruct (has_column csv "rtc_number") eqn:Hc; simpl; [|discriminate].
  destruct (has_column_index_of _ _ Hc) as [i Hi].
  unfold get_column. rewrite Hi. intros H. injection H as <-.
  rewrite (cleaned_series_keys _ _ Hi).
  unfold set_column, keyed_columns, keyed_row.
  rewrite combine_map_same.
  destruct (index_of "cleaned_rtc" (columns csv)); now rewrite map_map.
Qed.


Lemma keyed_columns_index (csv : DataFrame) :
  exists j, index_of "cleaned_rtc" (keyed_columns csv) = Some j /\
            forall r, List.length r = List.length (columns csv) ->
                      nth j (keyed_row float_repr na_as_text csv r) nan
                      = str_cell (stored_key float_repr na_as_text csv r).
Proof.
  unfold keyed_columns, keyed_row.
  destruct (index_of "cleaned_rtc" (columns csv)) as [j|] eqn:E.
  - exists j. split; [assumption|]. intros r Hr.
    apply nth_set_nth. rewrite Hr. now apply index_of_bound in E.
  - exists (List.length (columns csv)). split; [now apply index_of_app_new|].
    intros r Hr. rewrite <- Hr. apply nth_snoc.
Qed.

(** The column that the handler compares against holds one key per row
    of the file. *)
Lemma loaded_keys (csv df : DataFrame) :
  rectangular csv ->
  load_farmer_data float_repr na_as_text (Some csv) = Some df ->
  get_column df "cleaned_rtc"
  = Some (map (fun r => str_cell (stored_key float_repr na_as_text csv r))
              (rows csv)).
Proof.
  intros Hrect Hload. rewrite (load_farmer_data_frame _ _ Hload).
  destruct (keyed_columns_index csv) as (j & Hj & Hnth).
  unfold get_column. simpl. rewrite Hj, map_map. f_equal.
  apply map_ext_in. intros r Hr. apply Hnth.
  unfold rectangular in Hrect. rewrite Forall_forall in Hrect. auto.
Qed.

(** Popping the key from a row of the frame in memory gives the row of
    the file without a ["cleaned_rtc"] entry. *)
Lemma dict_pop_keyed_row (csv : DataFrame) (r : list scalar) :
  List.length r = List.length (columns csv) ->
  dict_pop (combine (keyed_columns csv)
                    (keyed_row float_repr na_as_text csv r)) "cleaned_rtc"
  = dict_pop (combine (columns csv) r) "cleaned_rtc".
Proof.
  intros Hr. unfold keyed_columns, keyed_row.
  destruct (index_of "cleaned_rtc" (columns csv)) as [j|] eqn:E.
  - now apply dict_pop_set_nth.
  - rewrite combine_snoc by (now symmetry).
    rewrite dict_pop_app. simpl. apply app_nil_r.
Qed.

Lemma keyed_columns_not_nil (csv : DataFrame) :
  (List.length (keyed_columns csv) =? 0)%nat = false.
Proof.
  destruct (keyed_columns_index csv) as (j & Hj & _).
  apply index_of_bound in Hj. apply Nat.eqb_neq. lia.
Qed.

Lemma eq_str_cell (o : option string) (x : string) :
  match str_cell o with
  | SStr s => String.eqb s x
  | _ => false
  end = key_matches o x.
Proof. destruct o; reflexivity. Qed.

(** The handler on a frame built at start-up, once the request has
    passed the presence check: a search for the first row of the file
    whose stored key is the normalised input. *)
Lemma get_farmer_data_loaded
      (st : AppState) (csv df : DataFrame) (elapsed : float)
      (d : list (string * Py.value)) :
  rectangular csv ->
  load_farmer_data float_repr na_as_text (Some csv) = Some df ->
  farmer_df st = Some df ->
  truthy (dict_get d "rtc") = true ->
  get_farmer_data float_repr str_repr st elapsed (PDict d)
  = match find (fun r => key_matches
                           (stored_key float_repr na_as_text csv r)
                           (cleaned_rtc_input float_repr str_repr
                                              (dict_get d "rtc")))
               (rows csv) with
    | Some r => Returns (found (record csv r) elapsed)
    | None => Returns not_found
    end.
Proof.
  intros Hrect Hload Hst Hq.
  unfold get_farmer_data. rewrite Hst, Hq. simpl negb. cbv iota.
  rewrite (loaded_keys _ _ Hrect Hload).
  rewrite (load_farmer_data_frame _ _ Hload).
  set (k := cleaned_rtc_input float_repr str_repr (dict_get d "rtc")).
  unfold boolean_index, eq_str, empty, iloc0_to_dict. simpl.
  rewrite keyed_columns_not_nil, orb_false_r.
  rewrite map_map.
  rewrite (map_ext _ (fun r => key_matches
                                 (stored_key float_repr na_as_text csv r) k))
    by (intros r; apply eq_str_cell).
  rewrite (filter_mask (keyed_row float_repr na_as_text csv)
                       (fun r => key_matches
                                   (stored_key float_repr na_as_text csv r) k)).
  rewrite <- hd_error_filter.
  pose proof (filter_In (fun r => key_matches
                                    (stored_key float_repr na_as_text csv r) k))
    as Hin.
  destruct (filter _ (rows csv)) as [|r rs] eqn:Hf; simpl; [reflexivity|].
  assert (Hr : In r (rows csv)).
  { apply (Hin r (rows csv)). rewrite Hf. now left. }
  unfold rectangular in Hrect. rewrite Forall_forall in Hrect.
  rewrite (dict_pop_keyed_row csv r (Hrect r Hr)).
  reflexivity.
Qed.

End Loaded.

End LookupFacts.


(* ------------------------------------------------------------------ *)
(** ** The properties of the specification *)

Import Py Pandas App Stmt Sample.
Import NormFacts PandasFacts LookupFacts.

Lemma dict_get_pop (d : list (string * Py.value)) (key : string) :
  dict_get (dict_pop d key) key = PNone.
Proof.
  induction d as [|[k v] d IH]; simpl; [reflexivity|].
  destruct (String.eqb k key) eqn:E; simpl; [assumption|]. now rewrite E.
Qed.

(** The handler reads the body through [d.get("rtc")] only. *)
Lemma get_farmer_data_unpresent
      (float_repr : float -> string) (str_repr : string -> string)
      (st : AppState) (elapsed : float) (d : list (string * Py.value)) :
  truthy (dict_get d "rtc") = false ->
  get_farmer_data float_repr str_repr st elapsed (PDict d)
  = Returns match farmer_df st with
            | Some _ => missing_input
            | None => data_unavailable
            end.
Proof.
  intros H. unfold get_farmer_data. rewrite H.
  destruct (farmer_df st); reflexivity.
Qed.

Lemma chat_unpresent
      (float_repr : float -> string) (str_repr : string -> string)
      (st : AppState) (elapsed : float) (d : list (string * Py.value)) :
  truthy (dict_get d "message") = false ->
  chat float_repr str_repr st elapsed (PDict d) = Ret (Returns invalid_request).
Proof. intros H. unfold chat. now rewrite H. Qed.

(** C1 (as amended): with the farmer dataset loaded, a JSON-object body
    whose [rtc] is empty or absent is answered with the MissingInput
    error and status 400, whatever the table holds; with the dataset
    not loaded the answer is the DataUnavailable error with status 500,
    because the handler tests the dataset first. *)
Theorem missing_rtc_rejected
        (float_repr : float -> string) (str_repr : string -> string)
        (st : AppState) (elapsed : float) (d : list (string * Py.value)) :
  truthy (dict_get d "rtc") = false ->
  get_farmer_data float_repr str_repr st elapsed (PDict d)
  = Returns match farmer_df st with
            | Some _ => missing_input
            | None => data_unavailable
            end
  /\ status missing_input = 400%Z
  /\ status data_unavailable = 500%Z.
Proof.
  intros H. split; [now apply get_farmer_data_unpresent|split; reflexivity].
Qed.

Lemma missing_rtc_rejected_witness :
  truthy (dict_get [] "rtc") = false
  /\ forall float_repr na_as_text str_repr json_dumps,
      get_farmer_data float_repr str_repr
                      (startup float_repr na_as_text json_dumps None None (Some soil_csv))
                      0 (PDict [])
      = Returns missing_input.
Proof.
  split; [reflexivity|]. intros float_repr na_as_text str_repr json_dumps.
  exact (proj1 (missing_rtc_rejected
                  float_repr str_repr
                  (startup float_repr na_as_text json_dumps None None (Some soil_csv))
                  0 [] eq_refl)).
Defined.

(** C1 as stated fails: a body without [rtc] sent while the farmer
    dataset is not loaded gets status 500, not 400. *)
Lemma missing_rtc_without_dataset_counterexample :
  truthy (dict_get [] "rtc") = false
  /\ (forall float_repr na_as_text str_repr json_dumps getenv schemes elapsed,
        get_farmer_data float_repr str_repr
                        (startup float_repr na_as_text json_dumps getenv schemes None)
                        elapsed (PDict [])
        = Returns data_unavailable)
  /\ status data_unavailable <> 400%Z.
Proof.
  split; [reflexivity|]. split; [|discriminate].
  intros float_repr na_as_text str_repr json_dumps getenv schemes elapsed.
  unfold startup.
  destruct (configure_api getenv), (load_knowledge_base json_dumps schemes).
  reflexivity.
Qed.

Lemma find_first {A : Type} (p : A -> bool) (l : list A) (i : nat) (x : A) :
  nth_error l i = Some x ->
  p x = true ->
  exists j y,
    (j <= i)%nat /\ nth_error l j = Some y /\ p y = true /\
    find p l = Some y /\
    forall j' z, (j' < j)%nat -> nth_error l j' = Some z -> p z = false.
Proof.
  revert i. induction l as [|a l IH]; intros i Hi Hp.
  - destruct i; discriminate.
  - simpl. destruct (p a) eqn:Ea.
    + exists 0%nat, a. repeat split; auto; intros; lia.
    + destruct i as [|i]; simpl in Hi; [congruence|].
      destruct (IH i Hi Hp) as (j & y & Hle & Hn & Hy & Hf & Hmin).
      exists (S j), y. repeat split; auto; try lia.
      intros [|j'] z Hj Hz; simpl in Hz; [congruence|].
      apply (Hmin j' z); [lia|assumption].
Qed.

Lemma find_none_iff {A : Type} (p : A -> bool) (l : list A) :
  (forall x, In x l -> p x = false) -> find p l = None.
Proof.
  induction l as [|a l IH]; simpl; intros H; [reflexivity|].
  rewrite (H a (or_introl eq_refl)). apply IH. auto.
Qed.

Lemma key_matches_true (key : option string) (x : string) :
  key_matches key x = true <-> key = Some x.
Proof.
  destruct key as [s|]; simpl; split; try discriminate.
  - intros H. apply String.eqb_eq in H. now subst.
  - intros H. injection H as ->. apply String.eqb_refl.
Qed.

Lemma key_matches_false (key : option string) (x : string) :
  key_matches key x = false <-> key <> Some x.
Proof.
  rewrite <- key_matches_true. destruct (key_matches key x); split;
    congruence.
Qed.

(** C2 (as amended): for every row loaded at start-up whose
    [rtc_number] value is present (not a missing value) and truthy, a
    query with that original value succeeds, and returns, without the
    normalised-key field, the first row in storage order whose stored
    key is this row's normalised key; that is the row itself when no
    earlier row has that stored key. *)
Theorem lookup_original_rtc
        (float_repr : float -> string) (na_as_text : bool)
        (str_repr : string -> string)
        (st : AppState) (csv df : DataFrame) (elapsed : float)
        (d : list (string * Py.value)) (i : nat) (row : list scalar) :
  rectangular csv ->
  load_farmer_data float_repr na_as_text (Some csv) = Some df ->
  farmer_df st = Some df ->
  nth_error (rows csv) i = Some row ->
  isna (rtc_cell csv row) = false ->
  dict_get d "rtc" = native (rtc_cell csv row) ->
  truthy (native (rtc_cell csv row)) = true ->
  exists j first,
    (j <= i)%nat /\ nth_error (rows csv) j = Some first /\
    stored_key float_repr na_as_text csv row
    = Some (Norm.normalize
              (Py.str float_repr str_repr (native (rtc_cell csv row)))) /\
    stored_key float_repr na_as_text csv first
    = stored_key float_repr na_as_text csv row /\
    (forall j' r', (j' < j)%nat -> nth_error (rows csv) j' = Some r' ->
                   stored_key float_repr na_as_text csv r'
                   <> stored_key float_repr na_as_text csv row) /\
    get_farmer_data float_repr str_repr st elapsed (PDict d)
    = Returns (found (record csv first) elapsed) /\
    status (found (record csv first) elapsed) = 200%Z /\
    ((forall j' r', (j' < i)%nat -> nth_error (rows csv) j' = Some r' ->
                    stored_key float_repr na_as_text csv r'
                    <> stored_key float_repr na_as_text csv row) ->
     first = row).
Proof.
  intros Hrect Hload Hst Hrow Hna Hd Hq.
  pose proof (stored_key_present float_repr na_as_text str_repr csv row Hna)
    as Hkey.
  set (k := cleaned_rtc_input float_repr str_repr (native (rtc_cell csv row)))
    in *.
  pose proof (get_farmer_data_loaded float_repr na_as_text str_repr
                                     st csv df elapsed d
                                     Hrect Hload Hst) as Hrun.
  rewrite Hd in Hrun at 1. specialize (Hrun Hq). rewrite Hd in Hrun.
  fold k in Hrun.
  assert (Hp : key_matches (stored_key float_repr na_as_text csv row) k = true)
    by now apply key_matches_true.
  destruct (find_first
              (fun r => key_matches (stored_key float_repr na_as_text csv r) k)
              (rows csv) i row Hrow Hp)
    as (j & first & Hle & Hn & Hy & Hf & Hmin).
  rewrite Hf in Hrun. apply key_matches_true in Hy.
  exists j, first. repeat split; auto.
  - congruence.
  - intros j' r' Hj Hr' Heq. specialize (Hmin j' r' Hj Hr').
    apply key_matches_false in Hmin. congruence.
  - intros Hnone.
    destruct (Nat.eq_dec j i) as [->|Hne]; [congruence|].
    exfalso. apply (Hnone j first); [lia|assumption|congruence].
Qed.

Lemma lookup_original_rtc_witness :
  rectangular duplicate_csv
  /\ nth_error (rows duplicate_csv) 1 = Some second_holding
  /\ isna (rtc_cell duplicate_csv second_holding) = false
  /\ native (rtc_cell duplicate_csv second_holding) = PStr "a1"
  /\ forall float_repr na_as_text str_repr json_dumps,
      exists j first,
        (j <= 1)%nat /\ nth_error (rows duplicate_csv) j = Some first /\
        stored_key float_repr na_as_text duplicate_csv second_holding
        = Some (Norm.normalize (Py.str float_repr str_repr (PStr "a1"))) /\
        stored_key float_repr na_as_text duplicate_csv first
        = stored_key float_repr na_as_text duplicate_csv second_holding /\
        (forall j' r', (j' < j)%nat ->
                       nth_error (rows duplicate_csv) j' = Some r' ->
                       stored_key float_repr na_as_text duplicate_csv r'
                       <> stored_key float_repr na_as_text duplicate_csv
                                     second_holding) /\
        get_farmer_data
          float_repr str_repr
          (startup float_repr na_as_text json_dumps None None
                   (Some duplicate_csv))
          0 (PDict [("rtc", PStr "a1")])
        = Returns (found (record duplicate_csv first) 0) /\
        status (found (record duplicate_csv first) 0) = 200%Z /\
        ((forall j' r', (j' < 1)%nat ->
                        nth_error (rows duplicate_csv) j' = Some r' ->
                        stored_key float_repr na_as_text duplicate_csv r'
                        <> stored_key float_repr na_as_text duplicate_csv
                                      second_holding) ->
         first = second_holding).
Proof.
  split; [repeat constructor|]. do 3 (split; [reflexivity|]).
  intros float_repr na_as_text str_repr json_dumps.
  exact (lookup_original_rtc
           float_repr na_as_text str_repr
           (startup float_repr na_as_text json_dumps None None
                    (Some duplicate_csv))
           duplicate_csv _ 0 [("rtc", PStr "a1")] 1 second_holding
           ltac:(repeat constructor) eq_refl eq_refl eq_refl eq_refl
           eq_refl eq_refl).
Defined.

(** C2 as stated fails in three ways.  The second of two rows with one
    normalised key is loaded, yet a query with its own [rtc_number]
    returns the first row.  A loaded row whose [rtc_number] is the
    integer 0 is not found by a query with 0, which the presence check
    refuses with status 400.  And where [astype(str)] keeps a missing
    value missing, a loaded row without a number is not found by a
    query with that missing value (the JSON literal NaN). *)
Lemma lookup_duplicate_key_counterexample :
  nth_error (rows duplicate_csv) 1 = Some second_holding
  /\ native (rtc_cell duplicate_csv second_holding) = PStr "a1"
  /\ (forall float_repr na_as_text str_repr json_dumps elapsed,
        get_farmer_data
          float_repr str_repr
          (startup float_repr na_as_text json_dumps None None
                   (Some duplicate_csv))
          elapsed (PDict [("rtc", PStr "a1")])
        = Returns (found (record duplicate_csv first_holding) elapsed))
  /\ record duplicate_csv first_holding
     = [("rtc_number", PStr "A-1"); ("owner", PStr "first")]
  /\ record duplicate_csv second_holding
     = [("rtc_number", PStr "a1"); ("owner", PStr "second")]
  /\ record duplicate_csv first_holding <> record duplicate_csv second_holding
  /\ nth_error (rows numbered_csv) 0 = Some [SInt 0; SStr "zero"]
  /\ native (rtc_cell numbered_csv [SInt 0; SStr "zero"]) = PInt 0
  /\ (forall float_repr na_as_text str_repr json_dumps elapsed,
        get_farmer_data
          float_repr str_repr
          (startup float_repr na_as_text json_dumps None None
                   (Some numbered_csv))
          elapsed (PDict [("rtc", PInt 0)])
        = Returns missing_input)
  /\ status missing_input = 400%Z
  /\ nth_error (rows unnumbered_csv) 0 = Some [nan; SStr "nobody"]
  /\ native (rtc_cell unnumbered_csv [nan; SStr "nobody"])
     = PFloat PrimFloat.nan
  /\ (forall float_repr str_repr json_dumps elapsed,
        get_farmer_data
          float_repr str_repr
          (startup float_repr false json_dumps None None
                   (Some unnumbered_csv))
          elapsed (PDict [("rtc", PFloat PrimFloat.nan)])
        = Returns not_found)
  /\ status not_found = 404%Z.
Proof.
  do 2 (split; [reflexivity|]). split; [intros; reflexivity|].
  do 2 (split; [reflexivity|]). split; [discriminate|].
  do 2 (split; [reflexivity|]). split; [intros; reflexivity|].
  do 3 (split; [reflexivity|]). split; [intros; reflexivity|].
  reflexivity.
Qed.



Lemma to_json_value_flat (v : scalar) :
  string_number_boolean_or_null (to_json_value v) = true.
Proof.
  unfold to_json_value. destruct (isna v); [reflexivity|].
  destruct v; reflexivity.
Qed.

Lemma to_json_value_missing (v : scalar) :
  isna v = true -> to_json_value v = PNone.
Proof. unfold to_json_value. now intros ->. Qed.

Lemma record_rtc_number (csv : DataFrame) (row : list scalar) (i : nat) :
  index_of "rtc_number" (columns csv) = Some i ->
  List.length row = List.length (columns csv) ->
  dict_get (record csv row) "rtc_number" = to_json_value (rtc_cell csv row).
Proof.
  unfold record, rtc_cell. intros Hi Hlen. rewrite Hi.
  revert i row Hi Hlen.
  induction (columns csv) as [|c cols IH]; intros i row Hi Hlen;
    simpl in Hi; [discriminate|].
  destruct row as [|x row]; simpl in Hlen; [discriminate|].
  simpl. destruct (String.eqb c "rtc_number") eqn:Ec.
  - injection Hi as <-. apply String.eqb_eq in Ec. subst c. reflexivity.
  - destruct (index_of "rtc_number" cols) as [j|] eqn:Ej; simpl in Hi;
      [|discriminate].
    injection Hi as <-.
    destruct (String.eqb c "cleaned_rtc"); simpl; [|rewrite Ec];
      apply (IH j row eq_refl); lia.
Qed.

Lemma record_missing (csv : DataFrame) (row : list scalar)
      (k : string) (v : scalar) :
  In (k, v) (combine (columns csv) row) ->
  k <> "cleaned_rtc" ->
  In (k, to_json_value v) (record csv row).
Proof.
  unfold record. generalize (combine (columns csv) row) as l.
  induction l as [|[k' v'] l IH]; simpl; [tauto|].
  intros [H|H] Hk.
  - injection H as -> ->.
    apply String.eqb_neq in Hk. rewrite Hk. now left.
  - destruct (String.eqb k' "cleaned_rtc"); [|right]; auto.
Qed.

(** C4 (as amended): on a successful look-up the returned record is a
    flat mapping from column name to a value of type string, number,
    boolean or null; every missing-value cell has become null; there is
    no [cleaned_rtc] member; and the [rtc_number] member is the row's
    own cell, not its normalised key. *)
Theorem found_record_shape
        (float_repr : float -> string) (na_as_text : bool) (str_repr : string -> string)
        (st : AppState) (csv df : DataFrame) (elapsed : float)
        (data : Py.value) (r : response) :
  rectangular csv ->
  load_farmer_data float_repr na_as_text (Some csv) = Some df ->
  farmer_df st = Some df ->
  get_farmer_data float_repr str_repr st elapsed data = Returns r ->
  status r = 200%Z ->
  exists row,
    In row (rows csv)
    /\ r = found (record csv row) elapsed
    /\ Forall (fun kv => string_number_boolean_or_null (snd kv) = true)
              (record csv row)
    /\ (forall k v, In (k, v) (combine (columns csv) row) ->
                    k <> "cleaned_rtc" -> isna v = true ->
                    In (k, PNone) (record csv row))
    /\ ~ In "cleaned_rtc" (map fst (record csv row))
    /\ dict_get (record csv row) "rtc_number"
       = to_json_value (rtc_cell csv row)
    /\ (isna (rtc_cell csv row) = false ->
        dict_get (record csv row) "rtc_number" = native (rtc_cell csv row)).
Proof.
  intros Hrect Hload Hst Hrun H200.
  destruct data as [| | | | | |d];
    try (unfold get_farmer_data in Hrun; rewrite Hst in Hrun; discriminate).
  destruct (truthy (dict_get d "rtc")) eqn:Hq.
  2:{ rewrite (get_farmer_data_unpresent _ _ _ _ _ Hq), Hst in Hrun.
      injection Hrun as <-. discriminate. }
  rewrite (get_farmer_data_loaded float_repr na_as_text str_repr st csv df elapsed d
                                  Hrect Hload Hst Hq) in Hrun.
  destruct (find _ (rows csv)) as [row|] eqn:Hf.
  2:{ injection Hrun as <-. discriminate. }
  injection Hrun as <-. apply find_some in Hf. destruct Hf as [Hin _].
  assert (Hlen : List.length row = List.length (columns csv)).
  { unfold rectangular in Hrect. rewrite Forall_forall in Hrect. auto. }
  assert (Hi : exists i, index_of "rtc_number" (columns csv) = Some i).
  { unfold load_farmer_data in Hload.
    destruct (has_column csv "rtc_number") eqn:Hc; [|discriminate].
    now apply has_column_index_of. }
  destruct Hi as [i Hi].
  exists row. repeat split; auto.
  - unfold record. apply Forall_map. apply Forall_forall. intros kv _.
    apply to_json_value_flat.
  - intros k v Hkv Hk Hna.
    rewrite <- (to_json_value_missing v Hna). now apply record_missing.
  - unfold record. rewrite map_map. simpl.
    change (fun x : string * scalar => fst x) with (@fst string scalar).
    apply dict_pop_absent.
  - now apply (record_rtc_number csv row i).
  - intros Hna. rewrite (record_rtc_number csv row i Hi Hlen).
    unfold to_json_value. rewrite Hna. now destruct (has_item _).
Qed.

Lemma found_record_shape_witness :
  rectangular soil_csv
  /\ get_farmer_data
       (fun _ => "6.5") (fun s => s)
       (startup (fun _ => "6.5") false (fun _ => "{}") None None
                (Some soil_csv))
       0 (PDict [("rtc", PStr "123abc45")])
     = Returns (found [("rtc_number", PStr "123/ABC-45");
                       ("soil_ph", PFloat 6.5)] 0)
  /\ exists row,
       In row (rows soil_csv)
       /\ found [("rtc_number", PStr "123/ABC-45"); ("soil_ph", PFloat 6.5)] 0
          = found (record soil_csv row) 0
       /\ Forall (fun kv => string_number_boolean_or_null (snd kv) = true)
                 (record soil_csv row)
       /\ (forall k v, In (k, v) (combine (columns soil_csv) row) ->
                       k <> "cleaned_rtc" -> isna v = true ->
                       In (k, PNone) (record soil_csv row))
       /\ ~ In "cleaned_rtc" (map fst (record soil_csv row))
       /\ dict_get (record soil_csv row) "rtc_number"
          = to_json_value (rtc_cell soil_csv row)
       /\ (isna (rtc_cell soil_csv row) = false ->
           dict_get (record soil_csv row) "rtc_number"
           = native (rtc_cell soil_csv row)).
Proof.
  split; [repeat constructor|]. split; [reflexivity|].
  exact (found_record_shape
           (fun _ => "6.5") false (fun s => s)
           (startup (fun _ => "6.5") false (fun _ => "{}") None None
                    (Some soil_csv))
           soil_csv _ 0 (PDict [("rtc", PStr "123abc45")])
           (found [("rtc_number", PStr "123/ABC-45"); ("soil_ph", PFloat 6.5)] 0)
           ltac:(repeat constructor) eq_refl eq_refl eq_refl eq_refl).
Defined.

(** C4 as stated fails: a cell of a True/False column is returned as a
    JSON boolean, which is neither a string, nor a number, nor null. *)
Lemma boolean_cell_counterexample :
  (forall float_repr na_as_text str_repr json_dumps elapsed,
      get_farmer_data
        float_repr str_repr
        (startup float_repr na_as_text json_dumps None None
                 (Some irrigated_csv))
        elapsed (PDict [("rtc", PStr "ka7")])
      = Returns (found [("rtc_number", PStr "KA-7"); ("irrigated", PBool true)]
                       elapsed))
  /\ status (found [("rtc_number", PStr "KA-7"); ("irrigated", PBool true)] 0)
     = 200%Z
  /\ string_number_or_null (PBool true) = false.
Proof.
  repeat split.
Qed.

(** C5: with the farmer dataset loaded, every identifier that passes
    the presence check and whose normalised form is the stored key of
    no loaded row is answered with the NotFound error and status 404;
    the handler returns, it does not raise. *)
Theorem unknown_rtc_not_found
        (float_repr : float -> string) (na_as_text : bool)
        (str_repr : string -> string)
        (st : AppState) (csv df : DataFrame) (elapsed : float)
        (d : list (string * Py.value)) :
  rectangular csv ->
  load_farmer_data float_repr na_as_text (Some csv) = Some df ->
  farmer_df st = Some df ->
  truthy (dict_get d "rtc") = true ->
  (forall row, In row (rows csv) ->
               stored_key float_repr na_as_text csv row
               <> Some (Norm.normalize
                          (Py.str float_repr str_repr (dict_get d "rtc")))) ->
  get_farmer_data float_repr str_repr st elapsed (PDict d) = Returns not_found
  /\ status not_found = 404%Z.
Proof.
  intros Hrect Hload Hst Hq Hnone. split; [|reflexivity].
  rewrite (get_farmer_data_loaded float_repr na_as_text str_repr
                                  st csv df elapsed d
                                  Hrect Hload Hst Hq).
  rewrite find_none_iff; [reflexivity|].
  intros row Hin. apply key_matches_false. now apply Hnone.
Qed.

Lemma unknown_rtc_not_found_witness :
  rectangular soil_csv
  /\ truthy (dict_get [("rtc", PStr "999zzz")] "rtc") = true
  /\ forall float_repr na_as_text str_repr json_dumps,
      get_farmer_data
        float_repr str_repr
        (startup float_repr na_as_text json_dumps None None (Some soil_csv))
        0 (PDict [("rtc", PStr "999zzz")])
      = Returns not_found
      /\ status not_found = 404%Z.
Proof.
  split; [repeat constructor|]. split; [reflexivity|].
  intros float_repr na_as_text str_repr json_dumps.
  apply (unknown_rtc_not_found
           float_repr na_as_text str_repr
           (startup float_repr na_as_text json_dumps None None (Some soil_csv))
           soil_csv _ 0 [("rtc", PStr "999zzz")]
           ltac:(repeat constructor) eq_refl eq_refl eq_refl).
  intros row [<-|[]]. discriminate.
Defined.

(** C6: a /chat request whose JSON-object body has an empty or missing
    [message] is answered with status 400, and the handler is a leaf of
    the interaction tree: the text-generation service is not called. *)
Theorem empty_message_rejected
        (float_repr : float -> string) (str_repr : string -> string)
        (st : AppState) (elapsed : float) (d : list (string * Py.value)) :
  truthy (dict_get d "message") = false ->
  chat float_repr str_repr st elapsed (PDict d) = Ret (Returns invalid_request)
  /\ status invalid_request = 400%Z.
Proof.
  intros H. split; [now apply chat_unpresent|reflexivity].
Qed.

Lemma empty_message_rejected_witness :
  truthy (dict_get [("message", PStr "")] "message") = false
  /\ truthy (dict_get [] "message") = false
  /\ forall float_repr str_repr st,
      chat float_repr str_repr st 0 (PDict [("message", PStr "")])
      = Ret (Returns invalid_request)
      /\ chat float_repr str_repr st 0 (PDict [])
         = Ret (Returns invalid_request).
Proof.
  split; [reflexivity|]. split; [reflexivity|].
  intros float_repr str_repr st. split.
  - exact (proj1 (empty_message_rejected float_repr str_repr st 0
                                         [("message", PStr "")] eq_refl)).
  - exact (proj1 (empty_message_rejected float_repr str_repr st 0 [] eq_refl)).
Defined.

(** C7 (as amended): when the knowledge base failed to load at
    start-up, a /chat request with a non-empty message is answered with
    status 500 and one with an empty or missing message with status
    400; in both cases the handler is a leaf of the interaction tree,
    so no completion call is attempted. *)
Theorem chat_without_knowledge_base
        (float_repr : float -> string) (na_as_text : bool) (str_repr : string -> string)
        (json_dumps : Py.value -> string)
        (getenv : option string) (csv : option DataFrame)
        (elapsed : float) (d : list (string * Py.value)) :
  chat float_repr str_repr
       (startup float_repr na_as_text json_dumps getenv None csv)
       elapsed (PDict d)
  = Ret (Returns (if truthy (dict_get d "message")
                  then knowledge_base_missing
                  else invalid_request))
  /\ status knowledge_base_missing = 500%Z
  /\ status invalid_request = 400%Z.
Proof.
  split; [|split; reflexivity].
  unfold startup. destruct (configure_api getenv) as [key configured]. simpl.
  unfold chat. destruct (truthy (dict_get d "message")); reflexivity.
Qed.

(** C7 as stated fails: with the knowledge base not loaded, a request
    without a message gets status 400, not 500. *)
Lemma chat_without_knowledge_base_counterexample :
  (forall float_repr na_as_text str_repr json_dumps getenv csv elapsed,
      knowledge_base_string (startup float_repr na_as_text json_dumps getenv None csv) = ""
      /\ chat float_repr str_repr
              (startup float_repr na_as_text json_dumps getenv None csv)
              elapsed (PDict [])
         = Ret (Returns invalid_request))
  /\ status invalid_request <> 500%Z.
Proof.
  split; [|discriminate].
  intros float_repr na_as_text str_repr json_dumps getenv csv elapsed.
  unfold startup. destruct (configure_api getenv). split; reflexivity.
Qed.

(** C8: when the credential is absent from the environment at
    start-up, [genai.configure] is not called, and every /chat request
    with a non-empty message, made with the knowledge base loaded, is
    answered with status 500 from a leaf of the interaction tree: the
    text-generation service is not contacted. *)
Theorem chat_without_credential
        (float_repr : float -> string) (na_as_text : bool) (str_repr : string -> string)
        (json_dumps : Py.value -> string)
        (schemes : option Py.value) (csv : option DataFrame)
        (elapsed : float) (d : list (string * Py.value)) :
  truthy (dict_get d "message") = true ->
  knowledge_base_string (startup float_repr na_as_text json_dumps None schemes csv) <> "" ->
  chat float_repr str_repr
       (startup float_repr na_as_text json_dumps None schemes csv)
       elapsed (PDict d)
  = Ret (Returns not_configured)
  /\ status not_configured = 500%Z
  /\ genai_configured (startup float_repr na_as_text json_dumps None schemes csv) = false.
Proof.
  intros Hm Hkb. unfold startup in *. simpl in *.
  destruct (load_knowledge_base json_dumps schemes) as [kb kb_string].
  simpl in *. repeat split.
  unfold chat. rewrite Hm. simpl.
  destruct kb_string; [congruence|reflexivity].
Qed.

Lemma chat_without_credential_witness :
  truthy (dict_get [("message", PStr "What is scheme X?")] "message") = true
  /\ forall float_repr na_as_text str_repr,
      chat float_repr str_repr
           (startup float_repr na_as_text (fun _ => "{}") None
                    (Some (PDict [])) None)
           0 (PDict [("message", PStr "What is scheme X?")])
      = Ret (Returns not_configured)
      /\ status not_configured = 500%Z
      /\ genai_configured
           (startup float_repr na_as_text (fun _ => "{}") None
                    (Some (PDict [])) None)
         = false.
Proof.
  split; [reflexivity|]. intros float_repr na_as_text str_repr.
  apply (chat_without_credential
           float_repr na_as_text str_repr (fun _ => "{}") (Some (PDict [])) None 0
           [("message", PStr "What is scheme X?")] eq_refl).
  discriminate.
Defined.

(** /health answers with status 200 in every state, and its body is
    built from the three [is not None] tests. *)
Lemma health_ok (st : AppState) :
  status (health st) = 200%Z
  /\ json_field (health st) "knowledge_base_loaded"
     = PBool (negb (is_none (knowledge_base st)))
  /\ json_field (health st) "farmer_data_loaded"
     = PBool (match farmer_df st with Some _ => true | None => false end)
  /\ json_field (health st) "api_key_configured"
     = PBool (negb (is_none (api_key st))).
Proof. repeat split. Qed.

(** C9 at the input where it breaks: with the credential variable set
    to the empty string, [genai.configure] is not called and every
    /chat request is refused, yet /health reports
    [api_key_configured] as true. *)
Theorem health_reports_empty_key_as_configured
        (float_repr : float -> string) (na_as_text : bool) (str_repr : string -> string)
        (json_dumps : Py.value -> string)
        (schemes : option Py.value) (csv : option DataFrame) :
  status (health (startup float_repr na_as_text json_dumps (Some "") schemes csv)) = 200%Z
  /\ json_field (health (startup float_repr na_as_text json_dumps (Some "") schemes csv))
                "api_key_configured"
     = PBool true
  /\ genai_configured (startup float_repr na_as_text json_dumps (Some "") schemes csv)
     = false
  /\ truthy (api_key (startup float_repr na_as_text json_dumps (Some "") schemes csv))
     = false
  /\ forall elapsed d,
      exists r,
        chat float_repr str_repr
             (startup float_repr na_as_text json_dumps (Some "") schemes csv)
             elapsed (PDict d)
        = Ret (Returns r)
        /\ status r <> 200%Z.
Proof.
  unfold startup. simpl.
  destruct (load_knowledge_base json_dumps schemes) as [kb kb_string].
  repeat split. intros elapsed d. unfold chat. simpl.
  destruct (truthy (dict_get d "message")); simpl.
  - destruct kb_string; simpl; eexists; (split; [reflexivity|discriminate]).
  - eexists; (split; [reflexivity|discriminate]).
Qed.

(** C10 (as amended): presence is decided by truthiness.  A body that
    binds [rtc] (or [message]) to a falsy JSON value gets the response
    of the same body without that key: status 400 from /chat in every
    state, and from /get_farmer_data status 400 when the farmer dataset
    is loaded and the 500 of the dataset test when it is not. *)
Theorem falsy_value_like_absent_key
        (float_repr : float -> string) (str_repr : string -> string)
        (st : AppState) (elapsed : float)
        (d : list (string * Py.value)) (v : Py.value) :
  truthy v = false ->
  get_farmer_data float_repr str_repr st elapsed (PDict (("rtc", v) :: d))
  = get_farmer_data float_repr str_repr st elapsed (PDict (dict_pop d "rtc"))
  /\ get_farmer_data float_repr str_repr st elapsed (PDict (("rtc", v) :: d))
     = Returns match farmer_df st with
               | Some _ => missing_input
               | None => data_unavailable
               end
  /\ chat float_repr str_repr st elapsed (PDict (("message", v) :: d))
     = chat float_repr str_repr st elapsed (PDict (dict_pop d "message"))
  /\ chat float_repr str_repr st elapsed (PDict (("message", v) :: d))
     = Ret (Returns invalid_request)
  /\ status missing_input = 400%Z
  /\ status invalid_request = 400%Z.
Proof.
  intros Hv.
  assert (Hr : truthy (dict_get (("rtc", v) :: d) "rtc") = false) by exact Hv.
  assert (Hm : truthy (dict_get (("message", v) :: d) "message") = false)
    by exact Hv.
  assert (Hr0 : truthy (dict_get (dict_pop d "rtc") "rtc") = false)
    by now rewrite dict_get_pop.
  assert (Hm0 : truthy (dict_get (dict_pop d "message") "message") = false)
    by now rewrite dict_get_pop.
  rewrite !(get_farmer_data_unpresent _ _ _ _ _ Hr).
  rewrite (get_farmer_data_unpresent _ _ _ _ _ Hr0).
  rewrite !(chat_unpresent _ _ _ _ _ Hm).
  rewrite (chat_unpresent _ _ _ _ _ Hm0).
  repeat split.
Qed.

Lemma falsy_value_like_absent_key_witness :
  truthy (PInt 0) = false
  /\ truthy (PBool false) = false
  /\ truthy (PStr "") = false
  /\ forall float_repr na_as_text str_repr json_dumps,
      get_farmer_data
        float_repr str_repr
        (startup float_repr na_as_text json_dumps None None (Some soil_csv))
        0 (PDict [("rtc", PInt 0)])
      = Returns missing_input
      /\ chat float_repr str_repr
              (startup float_repr na_as_text json_dumps None None (Some soil_csv))
              0 (PDict [("message", PBool false)])
         = Ret (Returns invalid_request)
      /\ chat float_repr str_repr
              (startup float_repr na_as_text json_dumps None None (Some soil_csv))
              0 (PDict [("message", PStr "")])
         = Ret (Returns invalid_request).
Proof.
  do 3 (split; [reflexivity|]).
  intros float_repr na_as_text str_repr json_dumps.
  pose (st := startup float_repr na_as_text json_dumps None None (Some soil_csv)).
  split; [|split].
  - exact (proj1 (proj2 (falsy_value_like_absent_key
                           float_repr str_repr st 0 [] (PInt 0) eq_refl))).
  - exact (proj1 (proj2 (proj2 (proj2 (falsy_value_like_absent_key
                           float_repr str_repr st 0 [] (PBool false) eq_refl))))).
  - exact (proj1 (proj2 (proj2 (proj2 (falsy_value_like_absent_key
                           float_repr str_repr st 0 [] (PStr "") eq_refl))))).
Defined.

(** C10 as stated fails: with the farmer dataset not loaded, a body
    that binds [rtc] to 0 gets status 500 from /get_farmer_data, not
    400. *)
Lemma falsy_rtc_without_dataset_counterexample :
  truthy (PInt 0) = false
  /\ (forall float_repr na_as_text str_repr json_dumps getenv schemes elapsed,
        get_farmer_data float_repr str_repr
                        (startup float_repr na_as_text json_dumps getenv schemes None)
                        elapsed (PDict [("rtc", PInt 0)])
        = Returns data_unavailable)
  /\ status data_unavailable <> 400%Z.
Proof.
  split; [reflexivity|]. split; [|discriminate].
  intros float_repr na_as_text str_repr json_dumps getenv schemes elapsed.
  unfold startup.
  destruct (configure_api getenv), (load_knowledge_base json_dumps schemes).
  reflexivity.
Qed.


(* ------------------------------------------------------------------ *)
(** ** Further properties: the normalisation *)

Import Run More.

Lemma canonical_char (c : ascii) :
  (Norm.is_lower c || Norm.is_digit c) = true ->
  Norm.in_class c = true /\ Norm.lower_char c = c.
Proof.
  destruct c as [[] [] [] [] [] [] [] []]; vm_compute; intros H;
    first [discriminate H | split; reflexivity].
Qed.

Lemma in_class_lower_or_digit (c : ascii) :
  Norm.in_class c = true ->
  (Norm.is_lower (Norm.lower_char c) || Norm.is_digit (Norm.lower_char c)) = true.
Proof.
  destruct c as [[] [] [] [] [] [] [] []]; vm_compute; intros H;
    first [discriminate H | reflexivity].
Qed.

Lemma re_sub_app (a b : string) :
  Norm.re_sub_non_alnum (a ++ b)
  = Norm.re_sub_non_alnum a ++ Norm.re_sub_non_alnum b.
Proof.
  induction a as [|c a IH]; simpl; [reflexivity|].
  destruct (Norm.in_class c); simpl; now rewrite IH.
Qed.

Lemma lower_app (a b : string) :
  Norm.lower (a ++ b) = Norm.lower a ++ Norm.lower b.
Proof. induction a as [|c a IH]; simpl; [reflexivity|]. now rewrite IH. Qed.

Lemma canonical_normalize (s : string) :
  canonical (Norm.normalize s) = true.
Proof.
  unfold Norm.normalize.
  induction s as [|c s IH]; simpl; [reflexivity|].
  destruct (Norm.in_class c) eqn:E; simpl; [|assumption].
  now rewrite (in_class_lower_or_digit c E), IH.
Qed.

Lemma normalize_append (a b : string) :
  Norm.normalize (a ++ b) = Norm.normalize a ++ Norm.normalize b.
Proof. unfold Norm.normalize. now rewrite re_sub_app, lower_app. Qed.

(** X1: a normalised key holds lower-case letters and digits only. *)
Theorem normalize_canonical (s : string) :
  canonical (Norm.normalize s) = true.
Proof. exact (canonical_normalize s). Qed.

(** X2: normalising a concatenation is concatenating the normalised
    parts. *)
Theorem normalize_app (a b : string) :
  Norm.normalize (a ++ b) = Norm.normalize a ++ Norm.normalize b.
Proof. exact (normalize_append a b). Qed.

(** X3: the strings that normalisation leaves unchanged are exactly
    those made of lower-case letters and digits. *)
Theorem normalize_fixed_iff (s : string) :
  Norm.normalize s = s <-> canonical s = true.
Proof.
  split.
  - intros H. rewrite <- H. apply canonical_normalize.
  - unfold Norm.normalize. induction s as [|c s IH]; simpl; [reflexivity|].
    intros H. apply andb_prop in H. destruct H as [Hc Hs].
    destruct (canonical_char c Hc) as [-> Hl]. simpl.
    now rewrite Hl, IH.
Qed.

Lemma ascii_fold_lower (s : string) : ascii_fold s = Norm.lower s.
Proof. induction s as [|c s IH]; simpl; [reflexivity|]. now rewrite IH. Qed.

(** X4: the key does not depend on the case of ASCII letters: two
    identifiers that are equal once their ASCII capital letters are
    made small have the same normalised key. *)
Theorem normalize_ignores_case (a b : string) :
  ascii_fold a = ascii_fold b ->
  Norm.normalize a = Norm.normalize b.
Proof.
  rewrite !ascii_fold_lower. intros H. unfold Norm.normalize.
  now rewrite <- !re_sub_lower, H.
Qed.

Lemma normalize_ignores_case_witness :
  ascii_fold "Ab/C-1" = ascii_fold "aB/c-1"
  /\ Norm.normalize "Ab/C-1" = Norm.normalize "aB/c-1".
Proof.
  split; [reflexivity|].
  exact (normalize_ignores_case "Ab/C-1" "aB/c-1" eq_refl).
Defined.

(** X5: a character outside [a-zA-Z0-9] may be inserted anywhere in an
    identifier without changing its normalised key. *)
Theorem normalize_ignores_punctuation (a b : string) (c : ascii) :
  Norm.in_class c = false ->
  Norm.normalize (a ++ String c b) = Norm.normalize (a ++ b).
Proof.
  intros H. rewrite !normalize_append. f_equal.
  unfold Norm.normalize. simpl. now rewrite H.
Qed.

Lemma normalize_ignores_punctuation_witness :
  Norm.in_class "/" = false
  /\ Norm.normalize ("123" ++ String "/" "abc") = Norm.normalize ("123" ++ "abc").
Proof.
  split; [reflexivity|].
  exact (normalize_ignores_punctuation "123" "abc" "/" eq_refl).
Defined.

(* ------------------------------------------------------------------ *)
(** ** Further properties: the frame built at start-up *)

Lemma has_column_false_index_of (df : DataFrame) (name : string) :
  has_column df name = false -> index_of name (columns df) = None.
Proof.
  unfold has_column. induction (columns df) as [|c cols IH]; simpl;
    [reflexivity|].
  rewrite (String.eqb_sym name c).
  destruct (String.eqb c name); simpl; [discriminate|].
  intros H. now rewrite (IH H).
Qed.

Lemma index_of_has_column (df : DataFrame) (name : string) (i : nat) :
  index_of name (columns df) = Some i -> has_column df name = true.
Proof.
  intros H. destruct (has_column df name) eqn:E; [reflexivity|].
  apply has_column_false_index_of in E. congruence.
Qed.

Lemma index_of_nth_error (name : string) (cols : list string) (i : nat) :
  index_of name cols = Some i -> nth_error cols i = Some name.
Proof.
  revert i. induction cols as [|c cols IH]; simpl; intros i H; [discriminate|].
  destruct (String.eqb c name) eqn:E.
  - injection H as <-. apply String.eqb_eq in E. now subst.
  - destruct (index_of name cols) as [j|]; simpl in H; [|discriminate].
    injection H as <-. simpl. now apply IH.
Qed.

Lemma index_of_app_other (name c : string) (cols : list string) :
  c <> name -> index_of name (cols ++ [c])%list = index_of name cols.
Proof.
  intros Hne. induction cols as [|x cols IH]; simpl.
  - apply String.eqb_neq in Hne. now rewrite Hne.
  - destruct (String.eqb x name); [reflexivity|]. now rewrite IH.
Qed.

Lemma set_nth_length (i : nat) (v : scalar) (r : list scalar) :
  List.length (set_nth i v r) = List.length r.
Proof.
  revert i. induction r as [|x r IH]; intros [|i]; simpl; auto.
Qed.

Lemma nth_set_nth_other (i j : nat) (v d : scalar) (r : list scalar) :
  i <> j -> nth i (set_nth j v r) d = nth i r d.
Proof.
  revert i j. induction r as [|x r IH]; intros [|i] [|j] H; simpl; auto;
    try congruence.
Qed.

Lemma keyed_row_length (float_repr : float -> string) (na_as_text : bool)
      (csv : DataFrame) (r : list scalar) :
  List.length r = List.length (columns csv) ->
  List.length (keyed_row float_repr na_as_text csv r) = List.length (keyed_columns csv).
Proof.
  intros H. unfold keyed_row, keyed_columns.
  destruct (index_of "cleaned_rtc" (columns csv)).
  - now rewrite set_nth_length.
  - rewrite !length_app. simpl. lia.
Qed.

Lemma load_some_iff
      (float_repr : float -> string) (na_as_text : bool) (csv : option DataFrame) :
  (exists df, load_farmer_data float_repr na_as_text csv = Some df)
  <-> (exists file, csv = Some file /\ has_column file "rtc_number" = true).
Proof.
  unfold load_farmer_data. split.
  - intros [df H]. destruct csv as [file|]; [|discriminate].
    exists file. split; [reflexivity|].
    destruct (has_column file "rtc_number"); [reflexivity|discriminate].
  - intros (file & -> & Hc). rewrite Hc. simpl.
    destruct (has_column_index_of _ _ Hc) as [i Hi].
    unfold get_column. rewrite Hi. eauto.
Qed.

(** X6: the farmer dataset is available after start-up exactly when
    the file could be read and has a column labelled [rtc_number];
    otherwise [farmer_df] is [None]. *)
Theorem load_farmer_data_available
        (float_repr : float -> string) (na_as_text : bool) (csv : option DataFrame) :
  (exists df, load_farmer_data float_repr na_as_text csv = Some df)
  <-> (exists file, csv = Some file /\ has_column file "rtc_number" = true).
Proof. exact (load_some_iff float_repr na_as_text csv). Qed.

(** X7: loading keeps the frame rectangular and keeps the number of
    rows; the frame in memory has a [cleaned_rtc] column, which replaces
    a column of that name when the file has one and is appended on the
    right when it has none. *)
Theorem load_farmer_data_shape
        (float_repr : float -> string) (na_as_text : bool) (csv df : DataFrame) :
  rectangular csv ->
  load_farmer_data float_repr na_as_text (Some csv) = Some df ->
  rectangular df
  /\ List.length (rows df) = List.length (rows csv)
  /\ has_column df "cleaned_rtc" = true
  /\ columns df = if has_column csv "cleaned_rtc"
                  then columns csv
                  else (columns csv ++ ["cleaned_rtc"])%list.
Proof.
  intros Hrect Hload. rewrite (load_farmer_data_frame _ _ _ _ Hload).
  unfold rectangular in *. simpl. repeat split.
  - apply Forall_map. revert Hrect. apply Forall_impl.
    intros r. apply keyed_row_length.
  - apply length_map.
  - destruct (keyed_columns_index float_repr na_as_text csv) as (j & Hj & _).
    apply (index_of_has_column
             {| columns := keyed_columns csv;
                rows := map (keyed_row float_repr na_as_text csv) (rows csv) |} _ j Hj).
  - unfold keyed_columns.
    destruct (index_of "cleaned_rtc" (columns csv)) as [j|] eqn:E.
    + now rewrite (index_of_has_column csv _ j E).
    + destruct (has_column csv "cleaned_rtc") eqn:Hc; [|reflexivity].
      destruct (has_column_index_of _ _ Hc) as [j Hj]. congruence.
Qed.

Lemma load_farmer_data_shape_witness :
  rectangular Sample.soil_csv
  /\ load_farmer_data repr_six_five false (Some Sample.soil_csv) = Some soil_frame
  /\ rectangular soil_frame
  /\ List.length (rows soil_frame) = List.length (rows Sample.soil_csv)
  /\ has_column soil_frame "cleaned_rtc" = true
  /\ columns soil_frame = (columns Sample.soil_csv ++ ["cleaned_rtc"])%list.
Proof.
  split; [repeat constructor|]. split; [reflexivity|].
  exact (load_farmer_data_shape repr_six_five false Sample.soil_csv soil_frame
                                ltac:(repeat constructor) eq_refl).
Defined.

(** X8: loading changes no column other than [cleaned_rtc]: every other
    label gives the same cells in the frame in memory as in the file,
    and a label the file does not have stays unknown. *)
Theorem load_farmer_data_keeps_columns
        (float_repr : float -> string) (na_as_text : bool) (csv df : DataFrame) (name : string) :
  rectangular csv ->
  load_farmer_data float_repr na_as_text (Some csv) = Some df ->
  name <> "cleaned_rtc" ->
  get_column df name = get_column csv name.
Proof.
  intros Hrect Hload Hname. rewrite (load_farmer_data_frame _ _ _ _ Hload).
  unfold rectangular in Hrect. rewrite Forall_forall in Hrect.
  unfold get_column, keyed_columns, keyed_row. simpl.
  destruct (index_of "cleaned_rtc" (columns csv)) as [j|] eqn:Ej.
  - destruct (index_of name (columns csv)) as [i|] eqn:Ei; [|reflexivity].
    rewrite map_map. f_equal. apply map_ext. intros r.
    apply nth_set_nth_other. intros ->.
    apply index_of_nth_error in Ei. apply index_of_nth_error in Ej.
    congruence.
  - rewrite index_of_app_other by (intros E; now subst).
    destruct (index_of name (columns csv)) as [i|] eqn:Ei; [|reflexivity].
    rewrite map_map. f_equal. apply map_ext_in. intros r Hr.
    apply app_nth1. rewrite (Hrect r Hr). now apply index_of_bound in Ei.
Qed.

Lemma load_farmer_data_keeps_columns_witness :
  rectangular Sample.soil_csv
  /\ load_farmer_data repr_six_five false (Some Sample.soil_csv) = Some soil_frame
  /\ "soil_ph" <> "cleaned_rtc"
  /\ get_column soil_frame "soil_ph" = get_column Sample.soil_csv "soil_ph".
Proof.
  split; [repeat constructor|]. split; [reflexivity|].
  split; [discriminate|].
  exact (load_farmer_data_keeps_columns
           repr_six_five false Sample.soil_csv soil_frame "soil_ph"
           ltac:(repeat constructor) eq_refl ltac:(discriminate)).
Defined.





(* ------------------------------------------------------------------ *)
(** ** Further properties: the look-up *)

(** X10: the look-up sees a supplied identifier only through its
    normalised form: in every state, two bodies whose [rtc] values pass
    the presence check and normalise to the same key get the same
    response. *)
Theorem lookup_depends_on_key_only
        (float_repr : float -> string) (str_repr : string -> string)
        (st : AppState) (elapsed : float)
        (d1 d2 : list (string * Py.value)) :
  truthy (dict_get d1 "rtc") = true ->
  truthy (dict_get d2 "rtc") = true ->
  Norm.normalize (Py.str float_repr str_repr (dict_get d1 "rtc"))
  = Norm.normalize (Py.str float_repr str_repr (dict_get d2 "rtc")) ->
  get_farmer_data float_repr str_repr st elapsed (PDict d1)
  = get_farmer_data float_repr str_repr st elapsed (PDict d2).
Proof.
  intros H1 H2 Hk. unfold get_farmer_data, cleaned_rtc_input.
  unfold Norm.normalize in Hk. now rewrite H1, H2, Hk.
Qed.

Lemma lookup_depends_on_key_only_witness :
  truthy (dict_get [("rtc", PStr "123/ABC-45")] "rtc") = true
  /\ truthy (dict_get [("rtc", PStr "123 abc 45")] "rtc") = true
  /\ forall float_repr str_repr st,
      get_farmer_data float_repr str_repr st 0
                      (PDict [("rtc", PStr "123/ABC-45")])
      = get_farmer_data float_repr str_repr st 0
                        (PDict [("rtc", PStr "123 abc 45")]).
Proof.
  split; [reflexivity|]. split; [reflexivity|].
  intros float_repr str_repr st.
  exact (lookup_depends_on_key_only
           float_repr str_repr st 0
           [("rtc", PStr "123/ABC-45")] [("rtc", PStr "123 abc 45")]
           eq_refl eq_refl eq_refl).
Defined.

(** X11: in a state built at start-up from a rectangular file, or from
    no file at all, the handler does not raise on a JSON-object body:
    it returns a response whose status is 200, 400, 404 or 500. *)
Theorem get_farmer_data_returns
        (float_repr : float -> string) (na_as_text : bool) (str_repr : string -> string)
        (json_dumps : Py.value -> string)
        (getenv : option string) (schemes : option Py.value)
        (csv : option DataFrame)
        (elapsed : float) (d : list (string * Py.value)) :
  (forall file, csv = Some file -> rectangular file) ->
  exists r,
    get_farmer_data float_repr str_repr
                    (startup float_repr na_as_text json_dumps getenv schemes csv)
                    elapsed (PDict d)
    = Returns r
    /\ In (status r) [200%Z; 400%Z; 404%Z; 500%Z].
Proof.
  intros Hrect.
  set (st := startup float_repr na_as_text json_dumps getenv schemes csv).
  assert (Hdf : farmer_df st = load_farmer_data float_repr na_as_text csv).
  { unfold st, startup.
    destruct (configure_api getenv), (load_knowledge_base json_dumps schemes).
    reflexivity. }
  destruct (truthy (dict_get d "rtc")) eqn:Hq.
  2:{ rewrite (get_farmer_data_unpresent _ _ _ _ _ Hq).
      destruct (farmer_df st); eexists; (split; [reflexivity|]); simpl; tauto. }
  destruct (load_farmer_data float_repr na_as_text csv) as [df|] eqn:Hload.
  - destruct csv as [file|]; [|discriminate Hload].
    rewrite (get_farmer_data_loaded float_repr na_as_text str_repr st file df elapsed d
                                    (Hrect file eq_refl) Hload Hdf Hq).
    destruct (find _ (rows file));
      eexists; (split; [reflexivity|]); simpl; tauto.
  - unfold get_farmer_data. rewrite Hdf.
    eexists; (split; [reflexivity|]); simpl; tauto.
Qed.

Lemma get_farmer_data_returns_witness :
  (forall file, Some soil_csv = Some file -> rectangular file)
  /\ forall float_repr na_as_text str_repr json_dumps,
      exists r,
        get_farmer_data float_repr str_repr
                        (startup float_repr na_as_text json_dumps None None (Some soil_csv))
                        0 (PDict [("rtc", PStr "999zzz")])
        = Returns r
        /\ In (status r) [200%Z; 400%Z; 404%Z; 500%Z].
Proof.
  assert (H : forall file, Some soil_csv = Some file -> rectangular file).
  { intros file E. injection E as <-. repeat constructor. }
  split; [exact H|]. intros float_repr na_as_text str_repr json_dumps.
  exact (get_farmer_data_returns float_repr na_as_text str_repr json_dumps None None
                                 (Some soil_csv) 0 [("rtc", PStr "999zzz")] H).
Defined.

(** X12: whenever [get_farmer_data] returns, in any state and for any
    body, the [success] member of the response is true exactly when the
    status is 200. *)
Theorem get_farmer_data_success_flag
        (float_repr : float -> string) (str_repr : string -> string)
        (st : AppState) (elapsed : float) (data : Py.value) (r : response) :
  get_farmer_data float_repr str_repr st elapsed data = Returns r ->
  json_field r "success" = PBool (status r =? 200)%Z.
Proof.
  unfold get_farmer_data.
  destruct (farmer_df st) as [df|]; [|intros H; injection H as <-; reflexivity].
  destruct data; try discriminate.
  destruct (negb (truthy (dict_get d "rtc")));
    [intros H; injection H as <-; reflexivity|].
  destruct (get_column df "cleaned_rtc"); [|discriminate].
  destruct (negb (empty _));
    [|intros H; injection H as <-; reflexivity].
  destruct (iloc0_to_dict _); [|discriminate].
  intros H; injection H as <-; reflexivity.
Qed.

Lemma get_farmer_data_success_flag_witness :
  get_farmer_data repr_six_five (fun s => s)
                  (startup repr_six_five false (fun _ => "{}") None None
                           (Some soil_csv))
                  0 (PDict [("rtc", PStr "999zzz")])
  = Returns not_found
  /\ json_field not_found "success" = PBool (status not_found =? 200)%Z.
Proof.
  split; [reflexivity|].
  exact (get_farmer_data_success_flag
           repr_six_five (fun s => s)
           (startup repr_six_five false (fun _ => "{}") None None (Some soil_csv))
           0 (PDict [("rtc", PStr "999zzz")]) not_found eq_refl).
Defined.

Lemma record_labels (csv : DataFrame) (row : list scalar) :
  List.length row = List.length (columns csv) ->
  map fst (record csv row)
  = filter (fun c => negb (String.eqb c "cleaned_rtc")) (columns csv).
Proof.
  unfold record. generalize (columns csv) as cols. intros cols.
  revert row. induction cols as [|c cols IH]; intros [|x row] H;
    simpl in *; try discriminate; [reflexivity|].
  destruct (String.eqb c "cleaned_rtc"); simpl; [|f_equal]; apply IH; lia.
Qed.

Lemma to_json_value_not_nan (v : scalar) : not_nan (to_json_value v) = true.
Proof.
  unfold to_json_value. destruct (isna v) eqn:E; [reflexivity|].
  destruct v; simpl in *; try reflexivity. now rewrite E.
Qed.

(** X13: on a successful look-up the member names of the returned
    record are exactly the column labels of the file other than
    [cleaned_rtc], no member is a float NaN, and the response carries
    the elapsed number. *)
Theorem found_record_labels
        (float_repr : float -> string) (na_as_text : bool)
        (str_repr : string -> string)
        (st : AppState) (csv df : DataFrame) (elapsed : float)
        (d : list (string * Py.value)) (r : response) :
  rectangular csv ->
  load_farmer_data float_repr na_as_text (Some csv) = Some df ->
  farmer_df st = Some df ->
  get_farmer_data float_repr str_repr st elapsed (PDict d) = Returns r ->
  status r = 200%Z ->
  exists data,
    json_field r "data" = PDict data
    /\ json_field r "elapsed" = PFloat elapsed
    /\ (forall name,
          In name (map fst data)
          <-> In name (columns csv) /\ name <> "cleaned_rtc")
    /\ Forall (fun kv => not_nan (snd kv) = true) data.
Proof.
  intros Hrect Hload Hst Hrun H200.
  destruct (truthy (dict_get d "rtc")) eqn:Hq.
  2:{ rewrite (get_farmer_data_unpresent _ _ _ _ _ Hq), Hst in Hrun.
      injection Hrun as <-. discriminate. }
  rewrite (get_farmer_data_loaded float_repr na_as_text str_repr
                                  st csv df elapsed d
                                  Hrect Hload Hst Hq) in Hrun.
  destruct (find _ (rows csv)) as [row|] eqn:Hf.
  2:{ injection Hrun as <-. discriminate. }
  injection Hrun as <-. apply find_some in Hf. destruct Hf as [Hin _].
  unfold rectangular in Hrect. rewrite Forall_forall in Hrect.
  exists (record csv row). repeat split.
  - rewrite (record_labels csv row (Hrect row Hin)) in H.
    apply filter_In in H. tauto.
  - rewrite (record_labels csv row (Hrect row Hin)) in H.
    apply filter_In in H. destruct H as [_ H].
    apply negb_true_iff in H. now apply String.eqb_neq in H.
  - intros [Hc Hne]. rewrite (record_labels csv row (Hrect row Hin)).
    apply filter_In. split; [assumption|].
    apply negb_true_iff. now apply String.eqb_neq.
  - unfold record. apply Forall_map. apply Forall_forall. intros kv _.
    apply to_json_value_not_nan.
Qed.

Lemma found_record_labels_witness :
  rectangular soil_csv
  /\ load_farmer_data repr_six_five false (Some soil_csv) = Some soil_frame
  /\ get_farmer_data repr_six_five (fun s => s)
                     (startup repr_six_five false (fun _ => "{}") None None
                              (Some soil_csv))
                     0 (PDict [("rtc", PStr "123abc45")])
     = Returns (found [("rtc_number", PStr "123/ABC-45");
                       ("soil_ph", PFloat 6.5)] 0)
  /\ exists data,
       json_field (found [("rtc_number", PStr "123/ABC-45");
                          ("soil_ph", PFloat 6.5)] 0) "data" = PDict data
       /\ json_field (found [("rtc_number", PStr "123/ABC-45");
                             ("soil_ph", PFloat 6.5)] 0) "elapsed" = PFloat 0
       /\ (forall name,
             In name (map fst data)
             <-> In name (columns soil_csv) /\ name <> "cleaned_rtc")
       /\ Forall (fun kv => not_nan (snd kv) = true) data.
Proof.
  split; [repeat constructor|]. split; [reflexivity|]. split; [reflexivity|].
  exact (found_record_labels
           repr_six_five false (fun s => s)
           (startup repr_six_five false (fun _ => "{}") None None
                    (Some soil_csv))
           soil_csv soil_frame 0 [("rtc", PStr "123abc45")]
           (found [("rtc_number", PStr "123/ABC-45"); ("soil_ph", PFloat 6.5)] 0)
           ltac:(repeat constructor) eq_refl eq_refl eq_refl eq_refl).
Defined.

(** X14: with the dataset loaded and an identifier that passes the
    presence check, the answer is NotFound exactly when no row of the
    file has the identifier's normalised form as its stored key (a
    missing key is the key of no identifier), and otherwise it is the
    record of a row that has that stored key. *)
Theorem lookup_not_found_iff
        (float_repr : float -> string) (na_as_text : bool)
        (str_repr : string -> string)
        (st : AppState) (csv df : DataFrame) (elapsed : float)
        (d : list (string * Py.value)) :
  rectangular csv ->
  load_farmer_data float_repr na_as_text (Some csv) = Some df ->
  farmer_df st = Some df ->
  truthy (dict_get d "rtc") = true ->
  (get_farmer_data float_repr str_repr st elapsed (PDict d) = Returns not_found
   <-> forall row, In row (rows csv) ->
                   stored_key float_repr na_as_text csv row
                   <> Some (Norm.normalize
                              (Py.str float_repr str_repr (dict_get d "rtc"))))
  /\ (get_farmer_data float_repr str_repr st elapsed (PDict d)
      <> Returns not_found ->
      exists row,
        In row (rows csv)
        /\ stored_key float_repr na_as_text csv row
           = Some (Norm.normalize
                     (Py.str float_repr str_repr (dict_get d "rtc")))
        /\ get_farmer_data float_repr str_repr st elapsed (PDict d)
           = Returns (found (record csv row) elapsed)).
Proof.
  intros Hrect Hload Hst Hq.
  rewrite (get_farmer_data_loaded float_repr na_as_text str_repr
                                  st csv df elapsed d
                                  Hrect Hload Hst Hq).
  change (cleaned_rtc_input float_repr str_repr (dict_get d "rtc"))
    with (Norm.normalize (Py.str float_repr str_repr (dict_get d "rtc"))).
  set (k := Norm.normalize (Py.str float_repr str_repr (dict_get d "rtc"))).
  destruct (find (fun r => key_matches
                             (stored_key float_repr na_as_text csv r) k)
                 (rows csv))
    as [row|] eqn:Hf.
  - apply find_some in Hf. destruct Hf as [Hin Hk].
    apply key_matches_true in Hk.
    split.
    + split; [discriminate|]. intros Hnone. exfalso. now apply (Hnone row).
    + intros _. exists row. auto.
  - split.
    + split; [|reflexivity]. intros _ row Hin.
      apply key_matches_false. apply (find_none _ _ Hf row Hin).
    + intros H. now contradiction H.
Qed.

Lemma lookup_not_found_iff_witness :
  rectangular soil_csv
  /\ load_farmer_data repr_six_five false (Some soil_csv) = Some soil_frame
  /\ truthy (dict_get [("rtc", PStr "123abc45")] "rtc") = true
  /\ (get_farmer_data repr_six_five (fun s => s)
                      (startup repr_six_five false (fun _ => "{}") None None
                               (Some soil_csv))
                      0 (PDict [("rtc", PStr "123abc45")])
      <> Returns not_found ->
      exists row,
        In row (rows soil_csv)
        /\ stored_key repr_six_five false soil_csv row = Some "123abc45"
        /\ get_farmer_data repr_six_five (fun s => s)
                           (startup repr_six_five false (fun _ => "{}")
                                    None None (Some soil_csv))
                           0 (PDict [("rtc", PStr "123abc45")])
           = Returns (found (record soil_csv row) 0)).
Proof.
  split; [repeat constructor|]. split; [reflexivity|]. split; [reflexivity|].
  exact (proj2 (lookup_not_found_iff
                  repr_six_five false (fun s => s)
                  (startup repr_six_five false (fun _ => "{}") None None
                           (Some soil_csv))
                  soil_csv soil_frame 0 [("rtc", PStr "123abc45")]
                  ltac:(repeat constructor) eq_refl eq_refl eq_refl)).
Defined.

Lemma find_in_some {A : Type} (p : A -> bool) (l : list A) (x : A) :
  In x l -> p x = true -> exists y, find p l = Some y.
Proof.
  intros Hin Hp. destruct (find p l) as [y|] eqn:E; [eauto|].
  rewrite (find_none _ _ E x Hin) in Hp. discriminate.
Qed.

Lemma truthy_str_nonempty (s : string) : s <> "" -> truthy (PStr s) = true.
Proof. destruct s; [congruence|reflexivity]. Qed.

Lemma stored_key_normal
      (float_repr : float -> string) (na_as_text : bool)
      (csv : DataFrame) (row : list scalar) (k : string) :
  stored_key float_repr na_as_text csv row = Some k ->
  Norm.normalize k = k.
Proof.
  unfold stored_key.
  destruct (astype_str float_repr na_as_text (rtc_cell csv row)) as [t|];
    simpl; [|discriminate].
  intros H. injection H as <-. apply normalize_idem.
Qed.

(** X15: searching by a stored key finds a row: for every loaded row
    that has a stored key which is not empty, a query with that key
    itself succeeds and returns the record of a row of the file that
    has this stored key. *)
Theorem lookup_by_stored_key
        (float_repr : float -> string) (na_as_text : bool)
        (str_repr : string -> string)
        (st : AppState) (csv df : DataFrame) (elapsed : float)
        (d : list (string * Py.value)) (row : list scalar) (k : string) :
  rectangular csv ->
  load_farmer_data float_repr na_as_text (Some csv) = Some df ->
  farmer_df st = Some df ->
  In row (rows csv) ->
  stored_key float_repr na_as_text csv row = Some k ->
  k <> "" ->
  dict_get d "rtc" = PStr k ->
  exists first,
    In first (rows csv)
    /\ stored_key float_repr na_as_text csv first = Some k
    /\ get_farmer_data float_repr str_repr st elapsed (PDict d)
       = Returns (found (record csv first) elapsed).
Proof.
  intros Hrect Hload Hst Hin Hkey Hne Hd.
  assert (Hq : truthy (dict_get d "rtc") = true).
  { rewrite Hd. now apply truthy_str_nonempty. }
  rewrite (get_farmer_data_loaded float_repr na_as_text str_repr
                                  st csv df elapsed d
                                  Hrect Hload Hst Hq).
  rewrite Hd. unfold cleaned_rtc_input. simpl Py.str.
  pose proof (stored_key_normal _ _ _ _ _ Hkey) as Hk.
  unfold Norm.normalize in Hk. rewrite Hk.
  destruct (find_in_some
              (fun r => key_matches (stored_key float_repr na_as_text csv r) k)
              (rows csv) row Hin) as [first Hf].
  { now apply key_matches_true. }
  rewrite Hf. apply find_some in Hf. destruct Hf as [Hfin Hfk].
  apply key_matches_true in Hfk. eauto.
Qed.

Lemma lookup_by_stored_key_witness :
  rectangular soil_csv
  /\ load_farmer_data repr_six_five false (Some soil_csv) = Some soil_frame
  /\ In [SStr "123/ABC-45"; SFloat 6.5] (rows soil_csv)
  /\ stored_key repr_six_five false soil_csv [SStr "123/ABC-45"; SFloat 6.5]
     = Some "123abc45"
  /\ "123abc45" <> ""
  /\ exists first,
       In first (rows soil_csv)
       /\ stored_key repr_six_five false soil_csv first = Some "123abc45"
       /\ get_farmer_data repr_six_five (fun s => s)
                          (startup repr_six_five false (fun _ => "{}")
                                   None None (Some soil_csv))
                          0 (PDict [("rtc", PStr "123abc45")])
          = Returns (found (record soil_csv first) 0).
Proof.
  split; [repeat constructor|]. split; [reflexivity|].
  split; [now left|]. split; [reflexivity|]. split; [discriminate|].
  exact (lookup_by_stored_key
           repr_six_five false (fun s => s)
           (startup repr_six_five false (fun _ => "{}") None None
                    (Some soil_csv))
           soil_csv soil_frame 0 [("rtc", PStr "123abc45")]
           [SStr "123/ABC-45"; SFloat 6.5] "123abc45"
           ltac:(repeat constructor) eq_refl eq_refl
           (or_introl eq_refl) eq_refl ltac:(discriminate) eq_refl).
Defined.

Lemma str_int_nonempty (z : Z) : Py.str_int z <> "".
Proof.
  unfold Py.str_int. destruct (Z.to_int z) as [u|u]; simpl.
  - destruct u; discriminate.
  - discriminate.
Qed.

(** X16: an identifier sent as a non-zero JSON integer is looked up
    like its decimal text: in every state the response is the one for
    the string [str(z)]. *)
Theorem lookup_integer_like_its_text
        (float_repr : float -> string) (str_repr : string -> string)
        (st : AppState) (elapsed : float) (z : Z) :
  z <> 0%Z ->
  get_farmer_data float_repr str_repr st elapsed (PDict [("rtc", PInt z)])
  = get_farmer_data float_repr str_repr st elapsed
                    (PDict [("rtc", PStr (Py.str_int z))]).
Proof.
  intros Hz. unfold get_farmer_data, cleaned_rtc_input. simpl dict_get.
  assert (H1 : truthy (PInt z) = true).
  { simpl. apply negb_true_iff. now apply Z.eqb_neq. }
  rewrite H1, (truthy_str_nonempty _ (str_int_nonempty z)). reflexivity.
Qed.

Lemma lookup_integer_like_its_text_witness :
  12345%Z <> 0%Z
  /\ Py.str_int 12345 = "12345"
  /\ forall float_repr str_repr st,
      get_farmer_data float_repr str_repr st 0 (PDict [("rtc", PInt 12345)])
      = get_farmer_data float_repr str_repr st 0
                        (PDict [("rtc", PStr "12345")]).
Proof.
  split; [discriminate|]. split; [reflexivity|].
  intros float_repr str_repr st.
  exact (lookup_integer_like_its_text float_repr str_repr st 0 12345
                                      ltac:(discriminate)).
Defined.

(** X17: a body that is not a JSON object is not rejected with a 400:
    [chat] raises AttributeError on it in every state, and
    [get_farmer_data] raises AttributeError when the dataset is loaded
    and answers 500 when it is not. *)
Theorem non_object_body_raises
        (float_repr : float -> string) (str_repr : string -> string)
        (st : AppState) (elapsed : float) (data : Py.value) :
  is_object data = false ->
  chat float_repr str_repr st elapsed data = Ret (Raises "AttributeError")
  /\ get_farmer_data float_repr str_repr st elapsed data
     = match farmer_df st with
       | Some _ => Raises "AttributeError"
       | None => Returns data_unavailable
       end.
Proof.
  intros H. unfold chat, get_farmer_data.
  destruct data; try discriminate; destruct (farmer_df st); split; reflexivity.
Qed.

Lemma non_object_body_raises_witness :
  is_object (PList []) = false
  /\ is_object PNone = false
  /\ forall float_repr na_as_text str_repr json_dumps,
      chat float_repr str_repr
           (startup float_repr na_as_text json_dumps None None (Some soil_csv))
           0 PNone
      = Ret (Raises "AttributeError")
      /\ get_farmer_data float_repr str_repr
                         (startup float_repr na_as_text json_dumps None None (Some soil_csv))
                         0 (PList [])
         = Raises "AttributeError".
Proof.
  split; [reflexivity|]. split; [reflexivity|].
  intros float_repr na_as_text str_repr json_dumps. split.
  - exact (proj1 (non_object_body_raises
                    float_repr str_repr
                    (startup float_repr na_as_text json_dumps None None (Some soil_csv))
                    0 PNone eq_refl)).
  - exact (proj2 (non_object_body_raises
                    float_repr str_repr
                    (startup float_repr na_as_text json_dumps None None (Some soil_csv))
                    0 (PList []) eq_refl)).
Defined.

(* ------------------------------------------------------------------ *)
(** ** Further properties: the chat handler against the service *)

(** What a run of [chat] on a JSON-object body gives, test by test. *)
Lemma chat_run
      (float_repr : float -> string) (str_repr : string -> string)
      (st : AppState) (elapsed : float) (d : list (string * Py.value))
      (n : nat) (srv : service) :
  run (S (S n)) srv (chat float_repr str_repr st elapsed (PDict d))
  = Some
      (if negb (truthy (dict_get d "message")) then
         (Returns invalid_request, [])
       else if negb (truthy (PStr (knowledge_base_string st))) then
         (Returns knowledge_base_missing, [])
       else if negb (truthy (api_key st)) then
         (Returns not_configured, [])
       else
         (match srv model_name
                    (format_prompt float_repr str_repr
                                   (knowledge_base_string st)
                                   (dict_get d "message")) with
          | Some text => Returns (answered text elapsed)
          | None => Returns completion_failed
          end,
          [(model_name,
            format_prompt float_repr str_repr
                          (knowledge_base_string st)
                          (dict_get d "message"))])).
Proof.
  unfold chat.
  destruct (negb (truthy (dict_get d "message"))); [reflexivity|].
  destruct (negb (truthy (PStr (knowledge_base_string st)))); [reflexivity|].
  destruct (negb (truthy (api_key st))); [reflexivity|].
  simpl. destruct (srv _ _); reflexivity.
Qed.

Lemma chat_run_any
      (float_repr : float -> string) (str_repr : string -> string)
      (st : AppState) (elapsed : float) (data : Py.value)
      (n : nat) (srv : service) :
  is_object data = false ->
  run (S (S n)) srv (chat float_repr str_repr st elapsed data)
  = Some (Raises "AttributeError", []).
Proof. destruct data; try discriminate; reflexivity. Qed.

(** X18: a run of [chat] on a JSON-object body ends within two steps
    and calls the service at most once: exactly one call, for model
    gemini-2.0-flash-exp with the composed prompt, when the message, the
    knowledge-base text and the credential are all truthy, and no call
    otherwise. *)
Theorem chat_calls_iff_gates
        (float_repr : float -> string) (str_repr : string -> string)
        (st : AppState) (elapsed : float) (d : list (string * Py.value))
        (n : nat) (srv : service) :
  exists o,
    run (S (S n)) srv (chat float_repr str_repr st elapsed (PDict d))
    = Some (o,
            if chat_gates_pass st d
            then [("gemini-2.0-flash-exp",
                   format_prompt float_repr str_repr
                                 (knowledge_base_string st)
                                 (dict_get d "message"))]
            else []).
Proof.
  rewrite chat_run. unfold chat_gates_pass.
  destruct (truthy (dict_get d "message")); simpl; [|eauto].
  destruct (knowledge_base_string st); simpl; [eauto|].
  destruct (truthy (api_key st)); simpl; eauto.
Qed.

(** X19: [chat] answers with status 200 only when the service has
    answered: then exactly one call was made, and the [reply] member is
    the text that the service returned for the composed prompt. *)
Theorem chat_ok_only_with_answer
        (float_repr : float -> string) (str_repr : string -> string)
        (st : AppState) (elapsed : float) (data : Py.value)
        (n : nat) (srv : service) (r : response) (calls : list call) :
  run (S (S n)) srv (chat float_repr str_repr st elapsed data)
  = Some (Returns r, calls) ->
  status r = 200%Z ->
  exists d text,
    data = PDict d
    /\ srv model_name
           (format_prompt float_repr str_repr (knowledge_base_string st)
                          (dict_get d "message"))
       = Some text
    /\ json_field r "reply" = PStr text
    /\ r = answered text elapsed
    /\ calls = [(model_name,
                 format_prompt float_repr str_repr (knowledge_base_string st)
                               (dict_get d "message"))].
Proof.
  intros Hrun H200.
  destruct (is_object data) eqn:Hobj.
  2:{ rewrite (chat_run_any _ _ _ _ _ _ _ Hobj) in Hrun. discriminate. }
  destruct data; try discriminate. rewrite chat_run in Hrun.
  destruct (negb (truthy (dict_get d "message")));
    [injection Hrun as <- <-; discriminate|].
  destruct (negb (truthy (PStr (knowledge_base_string st))));
    [injection Hrun as <- <-; discriminate|].
  destruct (negb (truthy (api_key st)));
    [injection Hrun as <- <-; discriminate|].
  destruct (srv _ _) as [text|] eqn:Hs;
    injection Hrun as <- <-; [|discriminate].
  exists d, text. repeat split; auto.
Qed.

Lemma chat_ok_only_with_answer_witness :
  run 2 (fun _ _ => Some "Scheme X is a subsidy.")
      (chat repr_six_five (fun s => s)
            (startup repr_six_five false (fun _ => "{}") (Some "k")
                     (Some (PDict [])) None)
            0 (PDict [("message", PStr "What is scheme X?")]))
  = Some (Returns (answered "Scheme X is a subsidy." 0),
          [(model_name,
            format_prompt repr_six_five (fun s => s) "{}"
                          (PStr "What is scheme X?"))])
  /\ exists d text,
      PDict [("message", PStr "What is scheme X?")] = PDict d
      /\ Some "Scheme X is a subsidy." = Some text
      /\ json_field (answered "Scheme X is a subsidy." 0) "reply" = PStr text
      /\ answered "Scheme X is a subsidy." 0 = answered text 0
      /\ [(model_name,
           format_prompt repr_six_five (fun s => s) "{}"
                         (PStr "What is scheme X?"))]
         = [(model_name,
             format_prompt repr_six_five (fun s => s) "{}"
                           (dict_get d "message"))].
Proof.
  split; [reflexivity|].
  exact (chat_ok_only_with_answer
           repr_six_five (fun s => s)
           (startup repr_six_five false (fun _ => "{}") (Some "k")
                    (Some (PDict [])) None)
           0 (PDict [("message", PStr "What is scheme X?")])
           0 (fun _ _ => Some "Scheme X is a subsidy.")
           (answered "Scheme X is a subsidy." 0)
           [(model_name,
             format_prompt repr_six_five (fun s => s) "{}"
                           (PStr "What is scheme X?"))]
           eq_refl eq_refl).
Defined.

(** X20: when the three tests pass and anything inside the [try] block
    raises, the response is the one fixed 500 reply, whatever the
    question, the prompt or the failure was; the call has been made
    once and is not repeated. *)
Theorem chat_failure_is_generic
        (float_repr : float -> string) (str_repr : string -> string)
        (st : AppState) (elapsed : float) (d : list (string * Py.value))
        (n : nat) (srv : service) :
  chat_gates_pass st d = true ->
  srv model_name
      (format_prompt float_repr str_repr (knowledge_base_string st)
                     (dict_get d "message"))
  = None ->
  run (S (S n)) srv (chat float_repr str_repr st elapsed (PDict d))
  = Some (Returns completion_failed,
          [(model_name,
            format_prompt float_repr str_repr (knowledge_base_string st)
                          (dict_get d "message"))])
  /\ status completion_failed = 500%Z.
Proof.
  intros Hg Hs. split; [|reflexivity]. rewrite chat_run, Hs.
  unfold chat_gates_pass in Hg.
  apply andb_prop in Hg. destruct Hg as [Hg Hk].
  apply andb_prop in Hg. destruct Hg as [Hm Hb].
  now rewrite Hm, Hb, Hk.
Qed.

Lemma chat_failure_is_generic_witness :
  chat_gates_pass
    (startup repr_six_five false (fun _ => "{}") (Some "k") (Some (PDict [])) None)
    [("message", PStr "What is scheme X?")]
  = true
  /\ run 2 (fun _ _ => None)
         (chat repr_six_five (fun s => s)
               (startup repr_six_five false (fun _ => "{}") (Some "k")
                        (Some (PDict [])) None)
               0 (PDict [("message", PStr "What is scheme X?")]))
     = Some (Returns completion_failed,
             [(model_name,
               format_prompt repr_six_five (fun s => s) "{}"
                             (PStr "What is scheme X?"))])
  /\ status completion_failed = 500%Z.
Proof.
  split; [reflexivity|].
  exact (chat_failure_is_generic
           repr_six_five (fun s => s)
           (startup repr_six_five false (fun _ => "{}") (Some "k")
                    (Some (PDict [])) None)
           0 [("message", PStr "What is scheme X?")] 0 (fun _ _ => None)
           eq_refl eq_refl).
Defined.

(** X21: in a state built at start-up, [chat] reaches the service only
    if [genai.configure] ran at start-up with a non-empty key and the
    schemes file was loaded. *)
Theorem chat_call_needs_configuration
        (float_repr : float -> string) (na_as_text : bool) (str_repr : string -> string)
        (json_dumps : Py.value -> string)
        (getenv : option string) (schemes : option Py.value)
        (csv : option DataFrame)
        (elapsed : float) (data : Py.value)
        (n : nat) (srv : service) (o : outcome) (calls : list call) :
  run (S (S n)) srv
      (chat float_repr str_repr
            (startup float_repr na_as_text json_dumps getenv schemes csv) elapsed data)
  = Some (o, calls) ->
  calls <> [] ->
  genai_configured (startup float_repr na_as_text json_dumps getenv schemes csv) = true
  /\ (exists key, getenv = Some key /\ key <> "")
  /\ (exists doc, schemes = Some doc).
Proof.
  intros Hrun Hcalls.
  destruct (is_object data) eqn:Hobj.
  2:{ rewrite (chat_run_any _ _ _ _ _ _ _ Hobj) in Hrun.
      injection Hrun as <- <-. now elim Hcalls. }
  destruct data; try discriminate. rewrite chat_run in Hrun.
  destruct (negb (truthy (dict_get d "message")));
    [injection Hrun as <- <-; now elim Hcalls|].
  unfold startup in *.
  destruct getenv as [key|], schemes as [doc|]; simpl in *;
    try (injection Hrun as <- <-; now elim Hcalls).
  - destruct key; simpl in *.
    + destruct (json_dumps doc); simpl in Hrun;
        injection Hrun as <- <-; now elim Hcalls.
    + repeat split; eauto. eexists; split; [reflexivity|discriminate].
  - destruct (json_dumps doc); simpl in Hrun;
      injection Hrun as <- <-; now elim Hcalls.
Qed.

Lemma chat_call_needs_configuration_witness :
  run 2 (fun _ _ => None)
      (chat repr_six_five (fun s => s)
            (startup repr_six_five false (fun _ => "{}") (Some "k")
                     (Some (PDict [])) None)
            0 (PDict [("message", PStr "What is scheme X?")]))
  = Some (Returns completion_failed,
          [(model_name,
            format_prompt repr_six_five (fun s => s) "{}"
                          (PStr "What is scheme X?"))])
  /\ genai_configured
       (startup repr_six_five false (fun _ => "{}") (Some "k") (Some (PDict [])) None)
     = true
  /\ (exists key, Some "k" = Some key /\ key <> "")
  /\ (exists doc, Some (PDict []) = Some doc).
Proof.
  split; [reflexivity|].
  exact (chat_call_needs_configuration
           repr_six_five false (fun s => s) (fun _ => "{}") (Some "k")
           (Some (PDict [])) None 0
           (PDict [("message", PStr "What is scheme X?")])
           0 (fun _ _ => None) _ _ eq_refl ltac:(discriminate)).
Defined.

(** X22: whenever a run of [chat] returns a response, its [success]
    member is true exactly when the status is 200, and it has a [reply]
    member that is a string. *)
Theorem chat_success_flag
        (float_repr : float -> string) (str_repr : string -> string)
        (st : AppState) (elapsed : float) (data : Py.value)
        (n : nat) (srv : service) (r : response) (calls : list call) :
  run (S (S n)) srv (chat float_repr str_repr st elapsed data)
  = Some (Returns r, calls) ->
  json_field r "success" = PBool (status r =? 200)%Z
  /\ is_string (json_field r "reply") = true.
Proof.
  intros Hrun.
  destruct (is_object data) eqn:Hobj.
  2:{ rewrite (chat_run_any _ _ _ _ _ _ _ Hobj) in Hrun. discriminate. }
  destruct data; try discriminate. rewrite chat_run in Hrun.
  destruct (negb (truthy (dict_get d "message")));
    [injection Hrun as <- <-; split; reflexivity|].
  destruct (negb (truthy (PStr (knowledge_base_string st))));
    [injection Hrun as <- <-; split; reflexivity|].
  destruct (negb (truthy (api_key st)));
    [injection Hrun as <- <-; split; reflexivity|].
  destruct (srv _ _); injection Hrun as <- <-; split; reflexivity.
Qed.

Lemma chat_success_flag_witness :
  run 2 (fun _ _ => None)
      (chat repr_six_five (fun s => s)
            (startup repr_six_five false (fun _ => "{}") (Some "k")
                     (Some (PDict [])) None)
            0 (PDict [("message", PStr "What is scheme X?")]))
  = Some (Returns completion_failed,
          [(model_name,
            format_prompt repr_six_five (fun s => s) "{}"
                          (PStr "What is scheme X?"))])
  /\ json_field completion_failed "success"
     = PBool (status completion_failed =? 200)%Z
  /\ is_string (json_field completion_failed "reply") = true.
Proof.
  split; [reflexivity|].
  exact (chat_success_flag
           repr_six_five (fun s => s)
           (startup repr_six_five false (fun _ => "{}") (Some "k")
                    (Some (PDict [])) None)
           0 (PDict [("message", PStr "What is scheme X?")])
           0 (fun _ _ => None) completion_failed _ eq_refl).
Defined.

(* ------------------------------------------------------------------ *)
(** ** Further properties: start-up, /health and the prompt *)

(** X23: the [farmer_data_loaded] flag of /health is exact: it is false
    exactly when [get_farmer_data] answers every request with the 500
    'not available' response. *)
Theorem health_farmer_flag_exact
        (float_repr : float -> string) (str_repr : string -> string)
        (st : AppState) :
  json_field (health st) "farmer_data_loaded" = PBool false
  <-> (forall elapsed data,
          get_farmer_data float_repr str_repr st elapsed data
          = Returns data_unavailable).
Proof.
  unfold health, get_farmer_data. simpl. split.
  - intros H elapsed data. destruct (farmer_df st); [discriminate|reflexivity].
  - intros H. specialize (H 0%float (PDict [])).
    destruct (farmer_df st); [discriminate|reflexivity].
Qed.

(** X24: after start-up /health reports [farmer_data_loaded] as true
    exactly when the farmer file could be read and has an [rtc_number]
    column. *)
Theorem health_farmer_flag_after_startup
        (float_repr : float -> string) (na_as_text : bool) (json_dumps : Py.value -> string)
        (getenv : option string) (schemes : option Py.value)
        (csv : option DataFrame) :
  json_field (health (startup float_repr na_as_text json_dumps getenv schemes csv))
             "farmer_data_loaded"
  = PBool true
  <-> (exists file, csv = Some file /\ has_column file "rtc_number" = true).
Proof.
  rewrite <- (load_some_iff float_repr na_as_text csv).
  unfold startup.
  destruct (configure_api getenv), (load_knowledge_base json_dumps schemes).
  unfold health. simpl.
  destruct (load_farmer_data float_repr na_as_text csv) as [df|]; split.
  - eauto.
  - reflexivity.
  - discriminate.
  - intros [df H]. discriminate.
Qed.

(** X25: given that [json.dumps] never returns the empty string, a
    [knowledge_base_loaded] flag that is true after start-up means that
    the schemes file was loaded and that the knowledge-base test of
    [chat] passes. *)
Theorem health_knowledge_flag_sound
        (float_repr : float -> string) (na_as_text : bool) (json_dumps : Py.value -> string)
        (getenv : option string) (schemes : option Py.value)
        (csv : option DataFrame) :
  (forall doc, json_dumps doc <> "") ->
  json_field (health (startup float_repr na_as_text json_dumps getenv schemes csv))
             "knowledge_base_loaded"
  = PBool true ->
  exists doc,
    schemes = Some doc
    /\ knowledge_base_string (startup float_repr na_as_text json_dumps getenv schemes csv)
       = json_dumps doc
    /\ truthy (PStr (knowledge_base_string
                       (startup float_repr na_as_text json_dumps getenv schemes csv)))
       = true.
Proof.
  intros Hdumps. unfold startup.
  destruct (configure_api getenv) as [key configured].
  destruct schemes as [doc|]; simpl; [|discriminate].
  intros _. exists doc. repeat split. now apply truthy_str_nonempty.
Qed.

Lemma health_knowledge_flag_sound_witness :
  (forall doc : Py.value, (fun _ : Py.value => "{}") doc <> "")
  /\ json_field (health (startup repr_six_five false (fun _ => "{}") None
                                 (Some (PDict [])) None))
                "knowledge_base_loaded"
     = PBool true
  /\ exists doc,
      Some (PDict []) = Some doc
      /\ knowledge_base_string
           (startup repr_six_five false (fun _ => "{}") None (Some (PDict [])) None)
         = (fun _ : Py.value => "{}") doc
      /\ truthy (PStr (knowledge_base_string
                         (startup repr_six_five false (fun _ => "{}") None
                                  (Some (PDict [])) None)))
         = true.
Proof.
  assert (H : forall doc : Py.value, (fun _ : Py.value => "{}") doc <> "")
    by (intros doc; discriminate).
  split; [exact H|]. split; [reflexivity|].
  exact (health_knowledge_flag_sound
           repr_six_five false (fun _ => "{}") None (Some (PDict [])) None
           H eq_refl).
Defined.

(** X26: the credential test of [chat] passes exactly when
    [genai.configure] ran at start-up, which is exactly when the
    environment holds a non-empty key. *)
Theorem credential_gate_matches_configure
        (float_repr : float -> string) (na_as_text : bool) (json_dumps : Py.value -> string)
        (getenv : option string) (schemes : option Py.value)
        (csv : option DataFrame) :
  truthy (api_key (startup float_repr na_as_text json_dumps getenv schemes csv))
  = genai_configured (startup float_repr na_as_text json_dumps getenv schemes csv)
  /\ (genai_configured (startup float_repr na_as_text json_dumps getenv schemes csv) = true
      <-> exists key, getenv = Some key /\ key <> "").
Proof.
  unfold startup. simpl.
  destruct (load_knowledge_base json_dumps schemes) as [kb kb_string]. simpl.
  split; [reflexivity|].
  destruct getenv as [[|c key]|]; simpl; split; try discriminate.
  - intros (key & E & Hne). injection E as <-. congruence.
  - intros _. eexists. split; [reflexivity|discriminate].
  - reflexivity.
  - intros (key & E & _). discriminate.
Qed.

Lemma string_app_length (a b : string) :
  String.length (a ++ b) = (String.length a + String.length b)%nat.
Proof. induction a as [|c a IH]; simpl; auto. Qed.

Lemma string_app_inv_head (a x y : string) : a ++ x = a ++ y -> x = y.
Proof.
  induction a as [|c a IH]; simpl; intros H; [assumption|].
  injection H as H. auto.
Qed.

Lemma string_app_inv_tail (t x y : string) : x ++ t = y ++ t -> x = y.
Proof.
  revert y. induction x as [|c x IH]; intros [|c' y] H; simpl in H.
  - reflexivity.
  - apply (f_equal String.length) in H. simpl in H.
    rewrite string_app_length in H. lia.
  - apply (f_equal String.length) in H. simpl in H.
    rewrite string_app_length in H. lia.
  - injection H as -> H. f_equal. now apply IH.
Qed.

(** X27: the composed prompt determines the question: with the same
    knowledge-base text, two string questions that give the same prompt
    are the same question (the question is embedded as it is). *)
Theorem format_prompt_injective
        (float_repr : float -> string) (str_repr : string -> string)
        (kb q1 q2 : string) :
  format_prompt float_repr str_repr kb (PStr q1)
  = format_prompt float_repr str_repr kb (PStr q2) ->
  q1 = q2.
Proof.
  unfold format_prompt. simpl Py.str. intros H.
  apply string_app_inv_head in H.
  apply string_app_inv_head in H.
  apply string_app_inv_head in H.
  now apply string_app_inv_tail in H.
Qed.

Lemma format_prompt_injective_witness :
  format_prompt repr_six_five (fun s => s) "{}" (PStr "What is scheme X?")
  = format_prompt repr_six_five (fun s => s) "{}" (PStr "What is scheme X?")
  /\ "What is scheme X?" = "What is scheme X?".
Proof.
  split; [reflexivity|].
  exact (format_prompt_injective
           repr_six_five (fun s => s) "{}"
           "What is scheme X?" "What is scheme X?" eq_refl).
Defined.
